(** * Derby predictor dashboard: the data path of [app.py] and [demo-app.py]

    The two Streamlit scripts load precomputed CSV tables, substitute a
    synthetic table when a view has none, narrow the rows by year and by
    horse name, and derive a demo flag from an optional access key.  This
    file embeds that data path and proves what the design document states
    about it.

    Layout: the fragment of Python and pandas the scripts call
    ([Module Py], [Module Pandas]), frames as objects in a store
    ([Module Heap]), files and Streamlit's memo decorator
    ([Module Streamlit]), one module per script ([Module App],
    [Module DemoApp]) with its functions under the names of the source,
    the row predicates the filters decide ([Module Keeps]) and inputs for
    examples ([Module Examples]); the theorems follow. *)

From stdpp Require Import base option list gmap strings pretty.
From Stdlib Require Import ZArith Lia Ascii.

Local Open Scope string_scope.
Local Open Scope Z_scope.

(** ** Python values, truthiness and exceptions *)

Module Py.

(** An exception is kept by the name of its class.  Every error below is
    an instance of [Exception]; interrupts and exits, which
    [except Exception] lets through, are not modelled. *)
Inductive exn : Type :=
| AttributeError
| KeyError
| ReError
| OtherError (class_name : string).

Inductive result (A : Type) : Type :=
| Ok (a : A)
| Raise (e : exn).
Arguments Ok {A} a.
Arguments Raise {A} e.

#[global] Instance result_ret : MRet result := @Ok.
#[global] Instance result_bind : MBind result := fun A B f r =>
  match r with
  | Ok a => f a
  | Raise e => Raise e
  end.

Definition is_ok {A} (r : result A) : bool :=
  match r with Ok _ => true | Raise _ => false end.

(** [if year:] on an [int | None]. *)
Definition truthy_int (x : option Z) : bool :=
  match x with
  | Some z => negb (z =? 0)
  | None => false
  end.

(** [if query:] on a [str | None]. *)
Definition truthy_str (x : option string) : bool :=
  match x with
  | Some s => negb (String.eqb s "")
  | None => false
  end.

(** The [re] module, taken as given: [re.compile(pat, re.IGNORECASE)]
    either raises or yields a compiled pattern, and [search] on a
    compiled pattern tells whether it matches somewhere in the subject. *)
Class Re : Type := {
  pattern : Type;
  compile_ignorecase : string -> option pattern;
  search : pattern -> string -> bool
}.

(** [s.replace(old, new)] for two single characters and [s.lower()].
    A string is its UTF-8 bytes; [str_lower] is [lower] on ASCII text,
    which [is_ascii] recognises. *)
Fixpoint str_map (f : ascii -> ascii) (s : string) : string :=
  match s with
  | EmptyString => EmptyString
  | String a s' => String (f a) (str_map f s')
  end.

Definition str_replace_char (old new : ascii) (s : string) : string :=
  str_map (fun a => if Ascii.eqb a old then new else a) s.

Definition is_upper (a : ascii) : bool :=
  (65 <=? nat_of_ascii a)%nat && (nat_of_ascii a <=? 90)%nat.

Definition ascii_lower (a : ascii) : ascii :=
  if is_upper a then ascii_of_nat (nat_of_ascii a + 32) else a.

Definition str_lower (s : string) : string := str_map ascii_lower s.


(** [f"{n:,}"] for a count: decimal digits in groups of three from the
    right, with commas between. *)
Fixpoint group3 (rev_digits : list ascii) : list ascii :=
  match rev_digits with
  | a :: b :: c :: ((_ :: _) as rest) => a :: b :: c :: ","%char :: group3 rest
  | _ => rev_digits
  end.

Definition format_thousands (n : nat) : string :=
  String.string_of_list_ascii
    (rev (group3 (rev (String.list_ascii_of_string (pretty n))))).

End Py.
Export Py.

(** ** The pandas fragment

    A frame carries its column labels with their dtypes and its rows, each
    row with its index label.  The operations are defined on every value of
    the record; they are pandas' on the frames [wf_frame] accepts: distinct
    column labels, one cell per column in every row, and cells of the
    column's dtype (an [object_] column holds strings and missing values,
    as [read_csv] and the dict constructor on lists of strings give). *)

Module Pandas.

Inductive scalar : Type :=
| SInt (z : Z)              (* int64 *)
| SFloat (m e : Z)          (* the finite binary64 number m * 2^e *)
| SBool (b : bool)
| SStr (s : string)
| SNaN.                     (* missing: NaN or None *)

Inductive dtype : Type := int64 | float64 | bool_ | object_.

#[global] Instance scalar_eq_dec : EqDecision scalar.
Proof. solve_decision. Defined.
#[global] Instance dtype_eq_dec : EqDecision dtype.
Proof. solve_decision. Defined.

Record Row : Type := { label : Z; cells : list scalar }.

Record DataFrame : Type := {
  schema : list (string * dtype);
  rows : list Row
}.

Record Series : Type := { s_dtype : dtype; s_values : list scalar }.

#[global] Instance Row_eq_dec : EqDecision Row.
Proof. solve_decision. Defined.
#[global] Instance DataFrame_eq_dec : EqDecision DataFrame.
Proof. solve_decision. Defined.

(** [df.columns] *)
Definition columns (df : DataFrame) : list string := (schema df).*1.

(** [pd.DataFrame()] *)
Definition DataFrame_new : DataFrame := {| schema := []; rows := [] |}.

(** [df.empty]: some axis has length 0. *)
Definition empty (df : DataFrame) : bool :=
  (length (schema df) =? 0)%nat || (length (rows df) =? 0)%nat.

(** [name in df.columns] *)
Definition has_column (name : string) (df : DataFrame) : bool :=
  bool_decide (name ∈ columns df).

Fixpoint column_index (name : string) (cols : list string) : option nat :=
  match cols with
  | [] => None
  | c :: cols' =>
      if String.eqb c name then Some 0%nat
      else S <$> column_index name cols'
  end.

(** The value a row holds under a column label; missing when the frame
    has no such column. *)
Definition cell (df : DataFrame) (name : string) (r : Row) : scalar :=
  match column_index name (columns df) with
  | Some i => nth i (cells r) SNaN
  | None => SNaN
  end.

(** [df[name]] *)
Definition getitem (df : DataFrame) (name : string) : result Series :=
  match column_index name (columns df) with
  | Some i =>
      Ok {| s_dtype := nth i (schema df).*2 object_;
            s_values := map (fun r => nth i (cells r) SNaN) (rows df) |}
  | None => Raise KeyError
  end.

(** [df.copy()]: a frame with the same labels and cells. *)
Definition copy (df : DataFrame) : DataFrame :=
  {| schema := schema df; rows := rows df |}.

Fixpoint select {A} (mask : list bool) (l : list A) : list A :=
  match mask, l with
  | b :: mask', x :: l' => if b then x :: select mask' l' else select mask' l'
  | _, _ => []
  end.

(** [df[mask]] with a boolean mask over the rows. *)
Definition getitem_mask (df : DataFrame) (mask : list bool) : DataFrame :=
  {| schema := schema df; rows := select mask (rows df) |}.

(** [v == y] for an integer [y], one cell at a time: numbers compare by
    value, [True] is 1 and [False] is 0, a string or a missing value
    never equals a number. *)
Definition scalar_eq_int (v : scalar) (y : Z) : bool :=
  match v with
  | SInt z => z =? y
  | SFloat m e => if 0 <=? e then m * 2 ^ e =? y else m =? y * 2 ^ (- e)
  | SBool b => (if b then 1 else 0) =? y
  | SStr _ => false
  | SNaN => false
  end.

(** [series == y] *)
Definition series_eq (s : Series) (y : Z) : list bool :=
  map (fun v => scalar_eq_int v y) (s_values s).

(** One cell of [series.str.contains(pat, case=False, na=False)]: a
    string is searched, anything else counts as missing and [na=False]
    turns it into [False]. *)
Definition contains_cell {re : Re} (p : pattern) (v : scalar) : bool :=
  match v with
  | SStr s => search p s
  | _ => false
  end.

(** [series.str.contains(pat, case=False, na=False)].  The [.str]
    accessor raises on a column that is not of strings; [regex=True] is
    the default, so [pat] is compiled, with [re.IGNORECASE], before any
    cell is looked at. *)
Definition str_contains {re : Re} (s : Series) (pat : string) : result (list bool) :=
  match s_dtype s with
  | object_ =>
      match compile_ignorecase pat with
      | Some p => Ok (map (contains_cell p) (s_values s))
      | None => Raise ReError
      end
  | _ => Raise AttributeError
  end.

(** [df[name] = values], for a list with one value per row: replaces the
    column when the label exists, appends it otherwise. *)
Definition put_cell (at_ : option nat) (r : Row) (v : scalar) : Row :=
  match at_ with
  | Some i => {| label := label r; cells := <[i:=v]> (cells r) |}
  | None => {| label := label r; cells := cells r ++ [v] |}
  end.

Definition setitem (df : DataFrame) (name : string) (dt : dtype)
    (values : list scalar) : DataFrame :=
  let at_ := column_index name (columns df) in
  {| schema := match at_ with
               | Some i => <[i:=(name, dt)]> (schema df)
               | None => schema df ++ [(name, dt)]
               end;
     rows := zip_with (put_cell at_) (rows df) values |}.

(** [pd.DataFrame({...})] on a dict of equally long lists: a default
    index 0..n-1 and the columns in the order of the dict. *)
Definition range_index (n : nat) : list Row :=
  map (fun i => {| label := Z.of_nat i; cells := [] |}) (seq 0 n).

Definition DataFrame_of_dict (d : list (string * dtype * list scalar)) : DataFrame :=
  let n := match d with
           | [] => 0%nat
           | (_, _, vs) :: _ => length vs
           end in
  fold_left (fun df '(name, dt, vs) => setitem df name dt vs) d
    {| schema := []; rows := range_index n |}.

(** Well-formed frames. *)
Definition conforms (dt : dtype) (v : scalar) : bool :=
  match dt, v with
  | int64, SInt _ => true
  | float64, (SFloat _ _ | SNaN) => true
  | bool_, SBool _ => true
  | object_, (SStr _ | SNaN) => true
  | _, _ => false
  end.

Fixpoint conforms_all (dts : list dtype) (vs : list scalar) : bool :=
  match dts, vs with
  | [], [] => true
  | dt :: dts', v :: vs' => conforms dt v && conforms_all dts' vs'
  | _, _ => false
  end.

Definition wf_frame (df : DataFrame) : bool :=
  bool_decide (NoDup (columns df))
  && forallb (fun r => conforms_all (schema df).*2 (cells r)) (rows df).

(** [df[cols]] with a list of labels: the columns in the order asked for,
    every row with its index label. *)
Definition getitem_list (df : DataFrame) (cols : list string) : result DataFrame :=
  match mapM (fun c => column_index c (columns df)) cols with
  | Some at_ =>
      Ok {| schema := (fun i => nth i (schema df) (EmptyString, object_)) <$> at_;
            rows := (fun r => {| label := label r;
                                 cells := (fun i => nth i (cells r) SNaN) <$> at_ |})
                    <$> rows df |}
  | None => Raise KeyError
  end.

Definition notna (v : scalar) : bool :=
  match v with SNaN => false | _ => true end.

(** One representation per number: [SFloat m e] with [m] odd, or zero. *)
Fixpoint odd_part (p : positive) (e : Z) : positive * Z :=
  match p with
  | xO p' => odd_part p' (e + 1)
  | _ => (p, e)
  end.

Definition canon (v : scalar) : scalar :=
  match v with
  | SFloat 0 _ => SFloat 0 0
  | SFloat (Zpos p) e => let '(q, e') := odd_part p e in SFloat (Zpos q) e'
  | SFloat (Zneg p) e => let '(q, e') := odd_part p e in SFloat (Zneg q) e'
  | _ => v
  end.

(** [series.nunique()]: the number of distinct values, missing ones left
    out. *)
Definition nunique (s : Series) : nat :=
  length (remove_dups (canon <$> List.filter notna (s_values s))).

(** The number a cell holds, as [m * 2^e]. *)
Definition dyadic (v : scalar) : option (Z * Z) :=
  match v with
  | SInt z => Some (z, 0)
  | SFloat m e => Some (m, e)
  | SBool b => Some (if b then 1 else 0, 0)
  | SStr _ | SNaN => None
  end.

Definition dyadic_le (a b : Z * Z) : bool :=
  let e := Z.min a.2 b.2 in
  a.1 * 2 ^ (a.2 - e) <=? b.1 * 2 ^ (b.2 - e).

Definition scalar_le (v w : scalar) : bool :=
  match dyadic v, dyadic w with
  | Some a, Some b => dyadic_le a b
  | _, _ => false
  end.

(** What pandas and Python do with a column of objects that has rows,
    taken as given: its least and its greatest element, and [int] of a
    string. *)
Class Objects : Type := {
  object_min : list scalar -> result scalar;
  object_max : list scalar -> result scalar;
  int_of_str : string -> result Z
}.

Definition least (v w : scalar) : scalar := if scalar_le w v then w else v.
Definition greatest (v w : scalar) : scalar := if scalar_le v w then w else v.

Definition reduce (pick : scalar -> scalar -> scalar) (vs : list scalar) : scalar :=
  match List.filter notna vs with
  | [] => SNaN
  | v :: vs' => fold_left pick vs' v
  end.

(** [series.min()] and [series.max()]: NaN on a column without rows, of
    any dtype, and on a column of missing values only; missing values are
    skipped. *)
Definition series_min {objects : Objects} (s : Series) : result scalar :=
  match s_values s, s_dtype s with
  | [], _ => Ok SNaN
  | _, object_ => object_min (s_values s)
  | _, _ => Ok (reduce least (s_values s))
  end.

Definition series_max {objects : Objects} (s : Series) : result scalar :=
  match s_values s, s_dtype s with
  | [], _ => Ok SNaN
  | _, object_ => object_max (s_values s)
  | _, _ => Ok (reduce greatest (s_values s))
  end.

(** [int(x)]: a float is cut towards zero, NaN raises [ValueError]. *)
Definition py_int {objects : Objects} (v : scalar) : result Z :=
  match v with
  | SInt z => Ok z
  | SFloat m e => Ok (if 0 <=? e then m * 2 ^ e else Z.quot m (2 ^ (- e)))
  | SBool b => Ok (if b then 1 else 0)
  | SStr s => int_of_str s
  | SNaN => Raise (OtherError "ValueError")
  end.

End Pandas.
Export Pandas.

(** ** Frames as objects

    A Python variable holds a reference to a frame.  The store maps
    references to frames; [copy] and indexing build a new object and leave
    the one they read alone, [setitem] writes into the object it is
    called on. *)

Module Heap.

Definition ref : Type := positive.
Abbreviation store := (gmap ref DataFrame) (only parsing).

(** A computation over the store that may raise. *)
Definition M (A : Type) : Type := store -> result A * store.

#[global] Instance M_ret : MRet M := fun A a h => (Ok a, h).
#[global] Instance M_bind : MBind M := fun A B f m h =>
  match m h with
  | (Ok a, h') => f a h'
  | (Raise e, h') => (Raise e, h')
  end.

Definition lift {A} (r : result A) : M A := fun h => (r, h).

Definition new (df : DataFrame) : M ref := fun h =>
  let l := fresh (dom h) in (Ok l, <[l := df]> h).

Definition read (l : ref) : M DataFrame := fun h =>
  match h !! l with
  | Some df => (Ok df, h)
  | None => (Raise (OtherError "ReferenceError"), h)
  end.

Definition write (l : ref) (df : DataFrame) : M unit := fun h =>
  (Ok tt, <[l := df]> h).

(** [df.columns], [df[name]], [df.copy()], [df[mask]] and
    [df[name] = values] on a reference. *)
Definition columns_of (l : ref) : M (list string) :=
  df ← read l; mret (columns df).

Definition getitem_of (l : ref) (name : string) : M Series :=
  df ← read l; lift (getitem df name).

Definition copy_of (l : ref) : M ref :=
  df ← read l; new (copy df).

Definition getitem_mask_of (l : ref) (mask : list bool) : M ref :=
  df ← read l; new (getitem_mask df mask).

Definition setitem_of (l : ref) (name : string) (dt : dtype) (values : list scalar)
    : M unit :=
  df ← read l; write l (setitem df name dt values).

End Heap.
Export Heap.

(** ** The world outside: files, and Streamlit's memo decorator *)

Module Streamlit.

(** [os.path.exists] and [pd.read_csv], taken as given.  [read_csv] can
    fail on a path that exists (a directory, an empty or malformed file,
    a file that cannot be decoded or read). *)
Class Files : Type := {
  path_exists : string -> bool;
  read_csv : string -> result DataFrame
}.

(** What a run of a function body gives: its result and the messages it
    put on the page ([st.warning]). *)
Definition run (A : Type) : Type := (result A * list string)%type.

(** [@st.cache_data]: results are memoised under the argument.  A hit
    returns the stored value and replays the stored messages without
    running the body; a miss runs the body and stores what it returned;
    an exception is passed on and nothing is stored. *)
Abbreviation memo A := (gmap string (A * list string)) (only parsing).

Definition cache_data {A} (body : string -> run A) (c : memo A) (arg : string)
    : run A * memo A :=
  match c !! arg with
  | Some (v, msgs) => ((Ok v, msgs), c)
  | None =>
      match body arg with
      | (Ok v, msgs) => ((Ok v, msgs), <[arg := (v, msgs)]> c)
      | (Raise e, msgs) => ((Raise e, msgs), c)
      end
  end.

(** A memo is coherent with a body when every entry is what the body
    returns now: the files have not changed since it was filled. *)
Definition coherent {A} (body : string -> run A) (c : memo A) : Prop :=
  forall arg v msgs, c !! arg = Some (v, msgs) -> body arg = (Ok v, msgs).

(** [st.multiselect(label, options=..., default=...)]: a default that is
    not among the options is refused; the widget holds its default until
    the user picks, then what the user picked. *)
Definition multiselect (options preset : list string) (pick : option (list string))
    : result (list string) :=
  if forallb (fun d => bool_decide (d ∈ options)) preset
  then Ok (default preset pick)
  else Raise (OtherError "StreamlitAPIException").

End Streamlit.
Export Streamlit.

(** ** app.py *)

Module App.
Section App.
Context {files : Files}.

(** The body of [load_csv]: a missing file gives a warning and an empty
    frame; an existing one is handed to [read_csv], whose failure is the
    failure of the call. *)
Definition load_csv_body (path : string) : run DataFrame :=
  if path_exists path then (read_csv path, [])
  else (Ok DataFrame_new, ["⚠️ File not found: " +:+ path]).

Definition load_csv : memo DataFrame -> string -> run DataFrame * memo DataFrame :=
  cache_data load_csv_body.

(** The five loads at the top of the script, in their order: the first one
    that raises ends the run, the warnings of the ones before it are on
    the page. *)
Fixpoint load_all (paths : list string) (c : memo DataFrame)
    : run (list DataFrame) * memo DataFrame :=
  match paths with
  | [] => ((Ok [], []), c)
  | path :: paths' =>
      match load_csv c path with
      | ((Ok df, msgs), c1) =>
          let '((r, msgs'), c2) := load_all paths' c1 in
          ((dfs ← r; Ok (df :: dfs), (msgs ++ msgs')%list), c2)
      | ((Raise e, msgs), c1) => ((Raise e, msgs), c1)
      end
  end.

Definition VIEW_FILES : list string := [
  "derby_2025_quick_predictions.csv";
  "derby_2025_rank_composite.csv";
  "derby_2025_pca_ranking.csv";
  "derby_2025_overlay_candidates.csv";
  "derby_2025_cluster_analysis.csv"
].

Definition TAB_NAMES : list string := ["Quick"; "Rank"; "PCA"; "Overlay"; "Clusters"].

(** [loaded_as path df]: [df] is what the body of [load_csv] returns for
    [path], the file's frame or the empty frame when there is no file. *)
Definition loaded_as (path : string) (df : DataFrame) : Prop :=
  if path_exists path then read_csv path = Ok df else df = DataFrame_new.

(** The script from the loads on: the frame each tab is given, under the
    tab's name. *)
Definition main (c : memo DataFrame) : run (list (string * DataFrame)) * memo DataFrame :=
  let '((r, msgs), c') := load_all VIEW_FILES c in
  ((dfs ← r; Ok (zip TAB_NAMES dfs), msgs), c').

End App.
End App.

(** ** demo-app.py *)

Module DemoApp.

Record view : Type := {
  key : string;
  title : string;
  emoji : string;
  file : string
}.

Definition DATA_VIEWS : list view := [
  {| key := "quick";   title := "Quick Composite";  emoji := "🔹"; file := "data/quick_predictions.csv" |};
  {| key := "rank";    title := "Model Rankings";   emoji := "🔸"; file := "data/model_rankings.csv" |};
  {| key := "pca";     title := "PCA Insights";     emoji := "♠️"; file := "data/pca_summary.csv" |};
  {| key := "overlay"; title := "Value Picks";      emoji := "💰"; file := "data/value_overlay.csv" |};
  {| key := "cluster"; title := "Cluster Analysis"; emoji := "🔄"; file := "data/cluster_insights.csv" |}
].

(** [st.secrets.get("ACCESS_KEY", os.getenv("DERBY_APP_KEY"))] *)
Definition ACCESS_KEY (secrets env : gmap string string) : option string :=
  match secrets !! "ACCESS_KEY" with
  | Some k => Some k
  | None => env !! "DERBY_APP_KEY"
  end.

Section Loading.
Context {files : Files}.

(** The body of [load_csv]: whatever goes wrong inside the [try] is
    dropped and the function falls through to the empty frame. *)
Definition load_csv_body (path : string) : run DataFrame :=
  let attempt : result (option DataFrame) :=
    if path_exists path then df ← read_csv path; Ok (Some df)
    else Ok None in
  match attempt with
  | Ok (Some df) => (Ok df, [])
  | Ok None | Raise _ => (Ok DataFrame_new, [])
  end.

Definition load_csv : memo DataFrame -> string -> run DataFrame * memo DataFrame :=
  cache_data load_csv_body.
End Loading.

Definition horses : list string :=
  ["Thunder Lane"; "Blue Ribbon"; "Crimson Tide"; "Midnight Ace"; "Golden Harbor"].

Definition make_demo_df (kind : string) : DataFrame :=
  let base := DataFrame_of_dict [
    ("Horse", object_, SStr <$> horses);
    ("Year", int64, replicate 5 (SInt 2025));
    ("PP", int64, SInt <$> [3; 7; 11; 5; 9]);
    ("Trainer", object_, replicate 5 (SStr "Redacted"));
    ("Jockey", object_, replicate 5 (SStr "Redacted"));
    ("CompositeIndex", float64,
      [SFloat 6495035087598387 (-46);     (* 92.3 *)
       SFloat 3170111925203763 (-45);     (* 90.1 *)
       SFloat 6241707608558797 (-46);     (* 88.7 *)
       SFloat 3092706306608333 (-45);     (* 87.9 *)
       SFloat 3039929748475085 (-45)]);   (* 86.4 *)
    ("SpeedFigure", int64, SInt <$> [100; 101; 98; 99; 97]);
    ("FinalFraction", float64,
      [SFloat 5291729562160333 (-47);     (* 37.6 *)
       SFloat 5333950808666931 (-47);     (* 37.9 *)
       SFloat 5362098306337997 (-47);     (* 38.1 *)
       SFloat 2659938529915699 (-46);     (* 37.8 *)
       SFloat 2688086027586765 (-46)]);   (* 38.2 *)
    ("Note", object_, (fun _ => SStr (kind +:+ " (demo)")) <$> seq 0 5)
  ] in
  let base :=
    if String.eqb kind "pca" then
      let base := setitem base "PC1" float64
        [SFloat 5404319552844595 (-52);     (* 1.2 *)
         SFloat 8106479329266893 (-53);     (* 0.9 *)
         SFloat (-5404319552844595) (-54);  (* -0.3 *)
         SFloat 3602879701896397 (-53);     (* 0.4 *)
         SFloat (-3152519739159347) (-52)]  (* -0.7 *) in
      setitem base "PC2" float64
        [SFloat (-3602879701896397) (-55);  (* -0.1 *)
         SFloat 1 (-1);                     (* 0.5 *)
         SFloat 1 0;                        (* 1.0 *)
         SFloat (-3602879701896397) (-54);  (* -0.2 *)
         SFloat 5404319552844595 (-54)]     (* 0.3 *)
    else base in
  let base :=
    if String.eqb kind "cluster" then
      setitem base "Cluster" object_ (SStr <$> ["A"; "A"; "B"; "B"; "C"])
    else base in
  base.

Definition ensure_demo_if_empty (df : DataFrame) (kind : string) : DataFrame :=
  if negb (empty df) then df else make_demo_df kind.

Section Filters.
Context {re : Re}.

(** The first [if] of [apply_filters]; past the guard [year] is an
    integer, which [default] reads off. *)
Definition filter_year (year : option Z) (out : DataFrame) : result DataFrame :=
  if truthy_int year && has_column "Year" out then
    col ← getitem out "Year";
    Ok (getitem_mask out (series_eq col (default 0 year)))
  else Ok out.

(** The second [if] of [apply_filters]. *)
Definition filter_query (query : option string) (out : DataFrame) : result DataFrame :=
  if truthy_str query && has_column "Horse" out then
    col ← getitem out "Horse";
    mask ← str_contains col (default "" query);
    Ok (getitem_mask out mask)
  else Ok out.

Definition apply_filters (df : DataFrame) (year : option Z) (query : option string)
    : result DataFrame :=
  let out := copy df in
  out ← filter_year year out;
  out ← filter_query query out;
  Ok out.
End Filters.

(** [apply_filters] as the interpreter runs it, on references: [out] is
    bound to a copy of the argument and then rebound to what each
    indexing returns. *)
Section OnReferences.
Context {re : Re}.

Definition filter_year_of (year : option Z) (out : ref) : M ref :=
  if truthy_int year then
    cols ← columns_of out;
    if bool_decide ("Year" ∈ cols) then
      col ← getitem_of out "Year";
      getitem_mask_of out (series_eq col (default 0 year))
    else mret out
  else mret out.

Definition filter_query_of (query : option string) (out : ref) : M ref :=
  if truthy_str query then
    cols ← columns_of out;
    if bool_decide ("Horse" ∈ cols) then
      col ← getitem_of out "Horse";
      mask ← lift (str_contains col (default "" query));
      getitem_mask_of out mask
    else mret out
  else mret out.

Definition apply_filters_of (df : ref) (year : option Z) (query : option string)
    : M ref :=
  out ← copy_of df;
  out ← filter_year_of year out;
  out ← filter_query_of query out;
  mret out.
End OnReferences.


(** The argument the tab loop passes to [ensure_demo_if_empty]. *)
Definition demo_kind (v : view) : string :=
  if bool_decide (key v ∈ ["pca"; "cluster"]) then key v else title v.

(** What the two sidebar widgets hold until the user changes them:
    [number_input(..., value=2025, ...)] and an empty [text_input]. *)
Definition year_filter_default : option Z := Some 2025.
Definition query_filter_default : option string := Some "".

Section Tabs.
Context {files : Files} {re : Re}.

(** The first two assignments of the tab loop's body. *)
Definition resolve_view (c : memo DataFrame) (v : view)
    : result DataFrame * memo DataFrame :=
  let '((r, _), c') := load_csv c (file v) in
  (df ← r; Ok (ensure_demo_if_empty df (demo_kind v)), c').

(** The three assignments of the tab loop's body. *)
Definition tab_frame (c : memo DataFrame) (v : view)
    (year_filter : option Z) (query_filter : option string)
    : result DataFrame * memo DataFrame :=
  let '(r, c') := resolve_view c v in
  (df ← r; apply_filters df year_filter query_filter, c').
End Tabs.

(** ** The rest of a tab: metrics and table *)

Definition DEFAULT_VISIBLE_COLS : list string :=
  ["Horse"; "Year"; "PP"; "Trainer"; "Jockey"; "CompositeIndex"; "Note"].

(** What [render_table] puts on the page: the message for a frame without
    rows or columns, or the column selector with its default, the frame
    shown, the frame handed to [download_bytes] and the name of the
    download. *)
Record table : Type := {
  options : list string;
  preset : list string;
  shown : DataFrame;
  download : DataFrame;
  file_name : string
}.

Inductive rendered : Type :=
| Info (msg : string)
| Table (t : table).

(** [cols] as a condition: a list is true when it has an element. *)
Definition truthy_list {A} (l : list A) : bool :=
  match l with [] => false | _ => true end.

(** [render_table]; [pick] is what the user chose in the selector, if the
    user touched it. *)
Definition render_table (df : DataFrame) (title : string) (pick : option (list string))
    : result rendered :=
  if empty df then Ok (Info "No rows to display.")
  else
    let default_cols :=
      List.filter (fun c => bool_decide (c ∈ columns df)) DEFAULT_VISIBLE_COLS in
    let preset :=
      if truthy_list default_cols then default_cols else take 8 (columns df) in
    cols ← multiselect (columns df) preset pick;
    shown ← (if truthy_list cols then getitem_list df cols else Ok df);
    download ← (if negb (truthy_list cols) then Ok df else getitem_list df cols);
    Ok (Table {| options := columns df;
                 preset := preset;
                 shown := shown;
                 download := download;
                 file_name := str_lower (str_replace_char " " "_" title) +:+ ".csv" |}).

Section Metrics.
Context {objects : Objects}.

(** The first two metrics of a tab, each shown only when its column is
    there.  The two averages that follow them in the source are means of
    floats and are not part of this model. *)
Definition horses_metric (df : DataFrame) : result (list (string * string)) :=
  if has_column "Horse" df then
    col ← getitem df "Horse";
    Ok [("Horses", format_thousands (nunique col))]
  else Ok [].

Definition pp_range_metric (df : DataFrame) : result (list (string * string)) :=
  if has_column "PP" df then
    col ← getitem df "PP";
    lo ← series_min col;
    lo ← py_int lo;
    hi ← series_max col;
    hi ← py_int hi;
    Ok [("PP Range", pretty lo +:+ "-" +:+ pretty hi)]
  else Ok [].

Definition tab_metrics (df : DataFrame) : result (list (string * string)) :=
  horses ← horses_metric df;
  pp_range ← pp_range_metric df;
  Ok (horses ++ pp_range)%list.

End Metrics.

Section TabHead.
Context {files : Files} {re : Re} {objects : Objects}.


End TabHead.



Section Session.
Context {files : Files} {re : Re}.


End Session.

End DemoApp.

(** ** Row predicates of the two filters

    What each [if] of [apply_filters] asks of a row when its guard is
    true; a filter whose guard is false asks nothing. *)

Module Keeps.
Section Keeps.
Context {re : Re}.

Definition column_dtype (df : DataFrame) (name : string) : option dtype :=
  i ← column_index name (columns df); Some (nth i (schema df).*2 object_).

Definition year_guard (df : DataFrame) (year : option Z) : bool :=
  truthy_int year && has_column "Year" df.

Definition query_guard (df : DataFrame) (query : option string) : bool :=
  truthy_str query && has_column "Horse" df.

Definition year_keeps (df : DataFrame) (year : option Z) (r : Row) : bool :=
  if year_guard df year then scalar_eq_int (cell df "Year" r) (default 0 year)
  else true.

Definition query_keeps (df : DataFrame) (query : option string) (r : Row) : bool :=
  if query_guard df query then
    match compile_ignorecase (default "" query) with
    | Some p => contains_cell p (cell df "Horse" r)
    | None => false
    end
  else true.

(** The error of the name filter, if it has one: it depends on the
    column's dtype and on the pattern, not on the rows. *)
Definition query_error (df : DataFrame) (query : option string) : option exn :=
  if query_guard df query then
    match column_dtype df "Horse" with
    | Some object_ =>
        match compile_ignorecase (default "" query) with
        | Some _ => None
        | None => Some ReError
        end
    | Some _ => Some AttributeError
    | None => Some KeyError
    end
  else None.

Definition keep (df : DataFrame) (p : Row -> bool) : DataFrame :=
  {| schema := schema df; rows := List.filter p (rows df) |}.

End Keeps.
End Keeps.
Export Keeps.

(** ** Reading a run on references against a result on frames

    [lands h out v x]: the run [x], started in the store [h] with the
    frame at [out], only added to the store, and it ended as [v] says: on
    the same error, or on a reference that holds the frame of [v] and is
    either [out] itself or was not in [h]. *)

Definition lands (h : store) (out : ref) (v : result DataFrame)
    (x : result ref * store) : Prop :=
  h ⊆ x.2 /\
  match v, x.1 with
  | Ok d', Ok out' => x.2 !! out' = Some d' /\ (out' = out \/ h !! out' = None)
  | Raise e, Raise e' => e = e'
  | _, _ => False
  end.

(** ** Concrete inputs for the examples *)

Module Examples.

Definition lower_ascii (a : ascii) : ascii :=
  let n := nat_of_ascii a in
  if (65 <=? n)%nat && (n <=? 90)%nat then ascii_of_nat (n + 32) else a.

(** Plain text: [contains_text q s] when [q] occurs in [s] as a substring,
    letters compared up to ASCII case. *)
Fixpoint text_here (q s : string) : bool :=
  match q, s with
  | EmptyString, _ => true
  | String c q', String a s' => Ascii.eqb (lower_ascii c) (lower_ascii a) && text_here q' s'
  | String _ _, EmptyString => false
  end.

Fixpoint contains_text (q s : string) : bool :=
  text_here q s
  || match s with
     | EmptyString => false
     | String _ s' => contains_text q s'
     end.

(** An engine to run examples with.  It takes the patterns made of ASCII
    letters, digits, spaces and dots and refuses every other; a dot stands
    for any character but a newline and every other character for itself,
    letters up to case, which is what [re] does with such a pattern on an
    ASCII subject. *)
Definition small_char (a : ascii) : bool :=
  let n := nat_of_ascii a in
  (n =? 32)%nat || (n =? 46)%nat || ((48 <=? n)%nat && (n <=? 57)%nat)
  || ((65 <=? n)%nat && (n <=? 90)%nat) || ((97 <=? n)%nat && (n <=? 122)%nat).

Definition char_matches (c a : ascii) : bool :=
  if Ascii.eqb c "."%char then negb (Ascii.eqb a "010"%char)
  else Ascii.eqb (lower_ascii c) (lower_ascii a).

Fixpoint matches_here (pat s : string) : bool :=
  match pat, s with
  | EmptyString, _ => true
  | String c pat', String a s' => char_matches c a && matches_here pat' s'
  | String _ _, EmptyString => false
  end.

Fixpoint finds (pat s : string) : bool :=
  matches_here pat s
  || match s with
     | EmptyString => false
     | String _ s' => finds pat s'
     end.

Definition small_re : Re := {|
  pattern := string;
  compile_ignorecase pat :=
    if forallb small_char (String.list_ascii_of_string pat) then Some pat else None;
  search := finds
|}.

(** Two rows, one of them of another year. *)
Definition two_years : DataFrame := {|
  schema := [("Horse", object_); ("Year", int64)];
  rows := [ {| label := 0; cells := [SStr "Thunder Lane"; SInt 2025] |};
            {| label := 1; cells := [SStr "Blue Ribbon"; SInt 2024] |} ]
|}.

(** Two rows, one of them without a name. *)
Definition one_unnamed : DataFrame := {|
  schema := [("Horse", object_); ("Year", int64)];
  rows := [ {| label := 0; cells := [SStr "Midnight Ace"; SInt 2025] |};
            {| label := 1; cells := [SNaN; SInt 2025] |} ]
|}.

(** One frame without a year column and one without a name column. *)
Definition no_year : DataFrame := {|
  schema := [("Horse", object_); ("PP", int64)];
  rows := [ {| label := 0; cells := [SStr "Crimson Tide"; SInt 11] |};
            {| label := 1; cells := [SStr "Golden Harbor"; SInt 9] |} ]
|}.

Definition no_horse : DataFrame := {|
  schema := [("Year", int64); ("PP", int64)];
  rows := [ {| label := 0; cells := [SInt 2025; SInt 3] |};
            {| label := 1; cells := [SInt 2024; SInt 7] |} ]
|}.

(** [pd.DataFrame(index=[0])]: one row, no column. *)
Definition index_only : DataFrame := {|
  schema := [];
  rows := [ {| label := 0; cells := [] |} ]
|}.

(** No file at all. *)
Definition no_files : Files := {|
  path_exists _ := false;
  read_csv _ := Raise (OtherError "FileNotFoundError")
|}.

(** One file, of zero bytes, at the path [app.py] reads its PCA view
    from and at the one [demo-app.py] does: [read_csv] raises
    [EmptyDataError] on it. *)
Definition empty_file : Files := {|
  path_exists p :=
    String.eqb p "derby_2025_pca_ranking.csv" || String.eqb p "data/pca_summary.csv";
  read_csv p :=
    if String.eqb p "derby_2025_pca_ranking.csv" || String.eqb p "data/pca_summary.csv"
    then Raise (OtherError "EmptyDataError")
    else Raise (OtherError "FileNotFoundError")
|}.

(** A store with one frame, the caller's. *)
Definition one_frame : store := {[ 1%positive := two_years ]}.

(** The last entry of [DATA_VIEWS]. *)
Definition cluster_view : DemoApp.view := {|
  DemoApp.key := "cluster";
  DemoApp.title := "Cluster Analysis";
  DemoApp.emoji := "🔄";
  DemoApp.file := "data/cluster_insights.csv"
|}.

(** An instance to run examples with; no example reduces a column of
    objects. *)
Definition no_objects : Objects := {|
  object_min _ := Raise (OtherError "TypeError");
  object_max _ := Raise (OtherError "TypeError");
  int_of_str _ := Raise (OtherError "ValueError")
|}.

(** One file on disk, the one of the first view, holding [two_years]. *)
Definition quick_file : Files := {|
  path_exists p := String.eqb p "data/quick_predictions.csv";
  read_csv p :=
    if String.eqb p "data/quick_predictions.csv" then Ok two_years
    else Raise (OtherError "FileNotFoundError")
|}.

(** The first entry of [DATA_VIEWS]. *)
Definition quick_view : DemoApp.view := {|
  DemoApp.key := "quick";
  DemoApp.title := "Quick Composite";
  DemoApp.emoji := "🔹";
  DemoApp.file := "data/quick_predictions.csv"
|}.


(** The columns of [no_horse] and none of its rows. *)
Definition no_rows : DataFrame := {| schema := schema no_horse; rows := [] |}.

(** What [render_table] makes of [no_horse] under the title "Value Picks"
    with the selector untouched. *)
Definition no_horse_table : DemoApp.table := {|
  DemoApp.options := ["Year"; "PP"];
  DemoApp.preset := ["Year"; "PP"];
  DemoApp.shown := no_horse;
  DemoApp.download := no_horse;
  DemoApp.file_name := "value_picks.csv"
|}.

(** The first row of [two_years], the one of 2025. *)
Definition of_2025 : DataFrame := {|
  schema := schema two_years;
  rows := [ {| label := 0; cells := [SStr "Thunder Lane"; SInt 2025] |} ]
|}.

End Examples.

(** * Facts about the pandas fragment *)

Section PandasFacts.

Lemma select_map {A} (p : A -> bool) (l : list A) :
  select (map p l) l = List.filter p l.
Proof.
  induction l as [|x l IH]; simpl; [done|].
  rewrite IH. by destruct (p x).
Qed.

Lemma filter_filter_andb {A} (f g : A -> bool) (l : list A) :
  List.filter g (List.filter f l) = List.filter (fun x => f x && g x) l.
Proof.
  induction l as [|x l IH]; simpl; [done|].
  destruct (f x); simpl; [|done].
  destruct (g x); by rewrite IH.
Qed.

Lemma filter_all {A} (l : list A) : List.filter (fun _ => true) l = l.
Proof. induction l as [|x l IH]; simpl; by rewrite ?IH. Qed.

Lemma filter_sublist {A} (p : A -> bool) (l : list A) :
  List.filter p l `sublist_of` l.
Proof.
  induction l as [|x l IH]; simpl; [done|].
  destruct (p x); by constructor.
Qed.

Lemma elem_of_filter_bool {A} (p : A -> bool) (l : list A) (x : A) :
  x ∈ List.filter p l <-> x ∈ l /\ p x = true.
Proof. rewrite !list_elem_of_In. apply filter_In. Qed.

Lemma column_index_elem_of (name : string) (cols : list string) :
  name ∈ cols <-> is_Some (column_index name cols).
Proof.
  induction cols as [|c cols IH]; simpl.
  - split; [by intros ?%elem_of_nil | by intros [? ?]].
  - destruct (String.eqb_spec c name) as [->|Hne].
    + split; [by eexists | intros _; left].
    + rewrite elem_of_cons, IH, fmap_is_Some.
      split; [intros [?|?]; [congruence|done] | by right].
Qed.

Lemma has_column_true (name : string) (df : DataFrame) :
  has_column name df = true ->
  exists i, column_index name (columns df) = Some i.
Proof.
  unfold has_column. intros Hin%bool_decide_eq_true.
  by apply column_index_elem_of in Hin as [i ?]; exists i.
Qed.

Lemma has_column_false (name : string) (df : DataFrame) :
  has_column name df = false -> column_index name (columns df) = None.
Proof.
  unfold has_column. intros Hin%bool_decide_eq_false.
  rewrite column_index_elem_of in Hin.
  by apply eq_None_not_Some.
Qed.

Lemma getitem_cells (df : DataFrame) (name : string) (i : nat) :
  column_index name (columns df) = Some i ->
  getitem df name =
    Ok {| s_dtype := nth i (schema df).*2 object_;
          s_values := map (cell df name) (rows df) |}.
Proof. intros Hi. unfold getitem, cell. by rewrite Hi. Qed.

Lemma copy_same (df : DataFrame) : copy df = df.
Proof. by destruct df. Qed.

Lemma keep_all (df : DataFrame) (p : Row -> bool) :
  (forall r, p r = true) -> keep df p = df.
Proof.
  intros Hp. destruct df as [sch rs]. unfold keep; simpl. f_equal.
  rewrite <- (filter_all rs) at 2. by apply filter_ext.
Qed.

Lemma keep_keep (df : DataFrame) (p q : Row -> bool) :
  keep (keep df p) q = keep df (fun r => p r && q r).
Proof. unfold keep; simpl. f_equal. apply filter_filter_andb. Qed.

Lemma keep_ext (df : DataFrame) (p q : Row -> bool) :
  (forall r, p r = q r) -> keep df p = keep df q.
Proof. intros Hpq. unfold keep. f_equal. by apply filter_ext. Qed.

End PandasFacts.

(** * What the two filters compute *)

Section FilterFacts.
Context {re : Re}.
Import DemoApp.

Lemma filter_year_keep (year : option Z) (out : DataFrame) :
  filter_year year out = Ok (keep out (year_keeps out year)).
Proof.
  unfold filter_year, year_keeps, year_guard.
  destruct (truthy_int year && has_column "Year" out) eqn:Hg.
  - apply andb_true_iff in Hg as [_ [i Hi]%has_column_true].
    rewrite (getitem_cells _ _ _ Hi). simpl.
    unfold getitem_mask, series_eq, keep; simpl.
    by rewrite map_map, select_map.
  - by rewrite keep_all.
Qed.

Lemma filter_query_keep (query : option string) (out : DataFrame) :
  filter_query query out =
    match query_error out query with
    | Some e => Raise e
    | None => Ok (keep out (query_keeps out query))
    end.
Proof.
  unfold filter_query, query_error, query_keeps, query_guard, column_dtype.
  destruct (truthy_str query && has_column "Horse" out) eqn:Hg.
  - apply andb_true_iff in Hg as [_ [i Hi]%has_column_true].
    rewrite (getitem_cells _ _ _ Hi), Hi. simpl.
    unfold str_contains; simpl.
    destruct (nth i (schema out).*2 object_); try done.
    destruct (compile_ignorecase (default "" query)) as [p|]; simpl; [|done].
    unfold getitem_mask, keep; simpl.
    by rewrite map_map, select_map.
  - by rewrite keep_all.
Qed.

(** The whole of [apply_filters]: it fails exactly when the name filter
    does, and otherwise keeps the rows both filters keep. *)
Lemma apply_filters_keep (df : DataFrame) (year : option Z) (query : option string) :
  apply_filters df year query =
    match query_error df query with
    | Some e => Raise e
    | None => Ok (keep df (fun r => year_keeps df year r && query_keeps df query r))
    end.
Proof.
  unfold apply_filters. rewrite copy_same, filter_year_keep. simpl.
  rewrite filter_query_keep.
  change (query_error (keep df (year_keeps df year)) query)
    with (query_error df query).
  destruct (query_error df query); simpl; [done|].
  by rewrite keep_keep.
Qed.

Lemma apply_filters_no_query (df : DataFrame) (year : option Z) (query : option string) :
  truthy_str query = false ->
  apply_filters df year query = Ok (keep df (year_keeps df year)).
Proof.
  intros Hq. rewrite apply_filters_keep.
  unfold query_error, query_keeps, query_guard. rewrite Hq. simpl.
  f_equal. apply keep_ext. intros r. by rewrite andb_true_r.
Qed.

End FilterFacts.

(** * The filter stage *)

Section FilterClaims.
Context {re : Re}.
Import DemoApp.


Lemma truthy_int_nonzero (Y : Z) : Y <> 0 -> truthy_int (Some Y) = true.
Proof. intros HY. simpl. by apply negb_true_iff, Z.eqb_neq. Qed.

Lemma truthy_str_nonempty (Q : string) : Q <> "" -> truthy_str (Some Q) = true.
Proof. intros HQ. simpl. by apply negb_true_iff, String.eqb_neq. Qed.

Lemma keep_all_rows (df : DataFrame) (p : Row -> bool) :
  Forall (fun r => p r = true) (rows df) -> keep df p = df.
Proof.
  destruct df as [sch rs]. unfold keep; simpl. intros Hall. f_equal.
  induction Hall as [|r rs Hr _ IH]; simpl; [done|].
  by rewrite Hr, IH.
Qed.

(** C2, as amended.  On a frame with a "Year" column and for every year
    other than 0, [apply_filters] returns when no query is given, and
    whenever it returns, every row of the result has a "Year" value equal
    to that year, the rows of the result are rows of the argument, in their
    order, and the columns are those of the argument. *)
Theorem apply_filters_year_exact (df : DataFrame) (Y : Z) :
  has_column "Year" df = true -> Y <> 0 ->
  is_ok (apply_filters df (Some Y) None) = true /\
  forall (query : option string) (out : DataFrame),
    apply_filters df (Some Y) query = Ok out ->
    (forall r, r ∈ rows out -> scalar_eq_int (cell out "Year" r) Y = true)
    /\ rows out `sublist_of` rows df
    /\ schema out = schema df.
Proof.
  intros Hcol HY. split.
  - by rewrite apply_filters_no_query.
  - intros query out. rewrite apply_filters_keep.
    destruct (query_error df query); [done|]. intros [= <-].
    split; [|split; [apply filter_sublist | done]].
    intros r [_ Hr]%elem_of_filter_bool.
    apply andb_true_iff in Hr as [Hy _].
    unfold year_keeps, year_guard in Hy.
    by rewrite (truthy_int_nonzero _ HY), Hcol in Hy.
Qed.

(** C3, as amended.  On a frame with a "Horse" column and for every
    non-empty query, whenever [apply_filters] returns, the query compiled
    as a regular expression under [re.IGNORECASE], every row of the result
    holds a string under "Horse" in which that expression finds a match,
    no row whose "Horse" value is missing is in the result, and the rows of
    the result are rows of the argument, in their order. *)
Theorem apply_filters_query_matches (df : DataFrame) (year : option Z) (Q : string)
    (out : DataFrame) :
  has_column "Horse" df = true -> Q <> "" ->
  apply_filters df year (Some Q) = Ok out ->
  exists p, compile_ignorecase Q = Some p /\
    (forall r, r ∈ rows out ->
       exists s, cell out "Horse" r = SStr s /\ search p s = true) /\
    (forall r, cell df "Horse" r = SNaN -> r ∉ rows out) /\
    rows out `sublist_of` rows df.
Proof.
  intros Hcol HQ. rewrite apply_filters_keep.
  destruct (query_error df (Some Q)) eqn:He; [done|]. intros [= <-].
  unfold query_error, query_guard in He.
  rewrite (truthy_str_nonempty _ HQ), Hcol in He. simpl in He.
  destruct (column_dtype df "Horse") as [[]|]; try done.
  destruct (compile_ignorecase Q) as [p|] eqn:Hp; [|done].
  assert (Hkeep : forall r, query_keeps df (Some Q) r = contains_cell p (cell df "Horse" r)).
  { intros r. unfold query_keeps, query_guard.
    rewrite (truthy_str_nonempty _ HQ), Hcol. simpl. by rewrite Hp. }
  exists p. split; [done|]. split; [|split].
  - intros r [_ Hr]%elem_of_filter_bool.
    apply andb_true_iff in Hr as [_ Hq]. rewrite Hkeep in Hq.
    change (cell (keep df _) "Horse" r) with (cell df "Horse" r).
    destruct (cell df "Horse" r) as [| | |s|]; try done. by exists s.
  - intros r Hna [_ Hr]%elem_of_filter_bool.
    apply andb_true_iff in Hr as [_ Hq]. by rewrite Hkeep, Hna in Hq.
  - apply filter_sublist.
Qed.

(** When the name filter runs it returns exactly on a "Horse" column of
    strings and a query that compiles. *)
Lemma apply_filters_query_returns (df : DataFrame) (year : option Z) (Q : string) :
  has_column "Horse" df = true -> Q <> "" ->
  is_ok (apply_filters df year (Some Q)) = true <->
  column_dtype df "Horse" = Some object_ /\ is_Some (compile_ignorecase Q).
Proof.
  intros Hcol HQ. rewrite apply_filters_keep.
  unfold query_error, query_guard.
  rewrite (truthy_str_nonempty _ HQ), Hcol. simpl.
  destruct (column_dtype df "Horse") as [[]|];
    destruct (compile_ignorecase Q); simpl; split;
    first [ by intros [? ?] | by intros [? [? ?]] | done | by eauto ].
Qed.

(** C6.  On a frame without a "Year" column the year filter does nothing,
    whatever the year: the call equals the call without a year, and with no
    query it returns the argument.  On a frame without a "Horse" column
    the name filter does nothing, whatever the query: the call equals the
    call without a query, with no year it returns the argument, and it
    never raises. *)
Theorem absent_column_is_noop (df : DataFrame) (year : option Z) (query : option string) :
  (has_column "Year" df = false ->
     apply_filters df year query = apply_filters df None query /\
     apply_filters df year None = Ok df) /\
  (has_column "Horse" df = false ->
     apply_filters df year query = apply_filters df year None /\
     apply_filters df None query = Ok df /\
     is_ok (apply_filters df year query) = true).
Proof.
  assert (Hnone : forall d r, year_keeps d None r = true) by done.
  split; intros Hcol.
  - assert (Hy : forall y r, year_keeps df y r = true).
    { intros y r. unfold year_keeps, year_guard. by rewrite Hcol, andb_false_r. }
    split.
    + rewrite !apply_filters_keep. destruct (query_error df query); [done|].
      f_equal. apply keep_ext. intros r. by rewrite Hy, Hnone.
    + rewrite apply_filters_no_query by done. f_equal. by apply keep_all.
  - assert (Hq : forall q r, query_keeps df q r = true).
    { intros q r. unfold query_keeps, query_guard. by rewrite Hcol, andb_false_r. }
    assert (He : forall q, query_error df q = None).
    { intros q. unfold query_error, query_guard. by rewrite Hcol, andb_false_r. }
    rewrite !apply_filters_keep, !He. repeat split.
    + f_equal. apply keep_ext. intros r. by rewrite !Hq.
    + f_equal. apply keep_all. intros r. by rewrite Hq, Hnone.
Qed.


End FilterClaims.

(** * The synthetic table and the substitution *)

Section DemoClaims.
Import DemoApp.

(** The three shapes of the synthetic table. *)
Lemma make_demo_df_schema (kind : string) :
  columns (make_demo_df kind) =
    (["Horse"; "Year"; "PP"; "Trainer"; "Jockey"; "CompositeIndex"; "SpeedFigure";
      "FinalFraction"; "Note"]
     ++ (if String.eqb kind "pca" then ["PC1"; "PC2"] else [])
     ++ (if String.eqb kind "cluster" then ["Cluster"] else []))%list.
Proof.
  unfold make_demo_df.
  destruct (String.eqb kind "pca"), (String.eqb kind "cluster"); reflexivity.
Qed.

Lemma make_demo_df_not_empty (kind : string) : empty (make_demo_df kind) = false.
Proof.
  unfold make_demo_df.
  destruct (String.eqb kind "pca"), (String.eqb kind "cluster"); reflexivity.
Qed.

Lemma make_demo_df_wf (kind : string) : wf_frame (make_demo_df kind) = true.
Proof.
  unfold make_demo_df.
  destruct (String.eqb kind "pca"), (String.eqb kind "cluster"); reflexivity.
Qed.

Lemma make_demo_df_years (kind : string) :
  Forall (fun r => cell (make_demo_df kind) "Year" r = SInt 2025)
    (rows (make_demo_df kind)).
Proof.
  unfold make_demo_df.
  destruct (String.eqb kind "pca"), (String.eqb kind "cluster");
    vm_compute; repeat (constructor; [reflexivity|]); constructor.
Qed.

Lemma make_demo_df_horses (kind : string) :
  map (cell (make_demo_df kind) "Horse") (rows (make_demo_df kind)) = SStr <$> horses.
Proof.
  unfold make_demo_df.
  destruct (String.eqb kind "pca"), (String.eqb kind "cluster"); reflexivity.
Qed.

Lemma horses_distinct : NoDup horses.
Proof. apply (bool_decide_unpack _). vm_compute. exact I. Qed.

(** The synthetic table passes the filters the sidebar starts with. *)
Lemma make_demo_df_passes_defaults {re : Re} (kind : string) (query : option string) :
  query = None \/ query = query_filter_default ->
  apply_filters (make_demo_df kind) year_filter_default query = Ok (make_demo_df kind).
Proof.
  intros Hq.
  rewrite apply_filters_no_query by (destruct Hq as [-> | ->]; reflexivity).
  f_equal. apply keep_all_rows.
  eapply Forall_impl; [apply make_demo_df_years|].
  intros r Hr. simpl in Hr. unfold year_keeps, year_guard, year_filter_default.
  destruct (truthy_int (Some 2025) && has_column "Year" (make_demo_df kind)); [|done].
  by rewrite Hr.
Qed.

(** C10.  For every kind the synthetic table has exactly 5 rows, every
    "Year" value is the integer 2025, the "Horse" values are the 5 names of
    [horses], all strings and all distinct, and the table passes the default
    year filter of 2025 whole: with no query, or with the empty query the
    search box holds by default, [apply_filters] at the default year
    returns the table itself. *)
Theorem make_demo_df_survives_default_year (kind : string) :
  length (rows (make_demo_df kind)) = 5%nat
  /\ (forall r, r ∈ rows (make_demo_df kind) ->
        cell (make_demo_df kind) "Year" r = SInt 2025)
  /\ map (cell (make_demo_df kind) "Horse") (rows (make_demo_df kind)) = SStr <$> horses
  /\ length horses = 5%nat /\ NoDup horses
  /\ forall (re : Re) (query : option string),
       query = None \/ query = query_filter_default ->
       apply_filters (make_demo_df kind) year_filter_default query
         = Ok (make_demo_df kind).
Proof.
  split; [|split; [|split; [|split; [reflexivity|split]]]].
  - unfold make_demo_df.
    destruct (String.eqb kind "pca"), (String.eqb kind "cluster"); reflexivity.
  - apply Forall_forall, make_demo_df_years.
  - apply make_demo_df_horses.
  - apply horses_distinct.
  - intros re query Hq. by apply make_demo_df_passes_defaults.
Qed.

(** C5, as amended.  [ensure_demo_if_empty] returns its argument unchanged
    when the frame has at least one row and at least one column, which is
    when [df.empty] is false, and it is idempotent on every frame and
    kind. *)
Theorem ensure_demo_if_empty_idempotent (t : DataFrame) (k : string) :
  (rows t <> [] -> schema t <> [] -> ensure_demo_if_empty t k = t)
  /\ ensure_demo_if_empty (ensure_demo_if_empty t k) k = ensure_demo_if_empty t k.
Proof.
  unfold ensure_demo_if_empty. split.
  - intros Hr Hs. destruct t as [[|c sch] [|r rs]]; done.
  - destruct (empty t) eqn:Ht; simpl.
    + by rewrite make_demo_df_not_empty.
    + by rewrite Ht.
Qed.


End DemoClaims.

(** * Loading *)

Section LoadingClaims.
Context {files : Files}.

(** With a coherent memo the memoised function returns what its body
    returns, and the memo stays coherent. *)
Lemma cache_data_coherent {A} (body : string -> run A) (c : memo A) (arg : string) :
  coherent body c ->
  (cache_data body c arg).1 = body arg /\ coherent body (cache_data body c arg).2.
Proof.
  intros Hc. unfold cache_data.
  destruct (c !! arg) as [[v msgs]|] eqn:Hhit; simpl.
  - split; [symmetry; by apply Hc | done].
  - destruct (body arg) as [[v|e] msgs] eqn:Hbody; simpl; (split; [done|]); [|done].
    intros arg' v' msgs'. rewrite lookup_insert.
    case_decide as Harg; [|by apply Hc].
    intros [= <- <-]. by subst arg'.
Qed.

Lemma coherent_empty {A} (body : string -> run A) : coherent body ∅.
Proof. intros arg v msgs. by rewrite lookup_empty. Qed.

Lemma demo_load_csv_body_ok (path : string) :
  exists df, DemoApp.load_csv_body path = (Ok df, []).
Proof.
  unfold DemoApp.load_csv_body.
  destruct (path_exists path); [|by eexists].
  destruct (read_csv path); by eexists.
Qed.

Lemma demo_load_csv_ok (c : memo DataFrame) (path : string) :
  is_ok (DemoApp.load_csv c path).1.1 = true.
Proof.
  unfold DemoApp.load_csv, cache_data.
  destruct (c !! path) as [[v msgs]|]; [done|].
  by destruct (demo_load_csv_body_ok path) as [df ->].
Qed.

(** C1, as amended.  With memos that hold nothing stale:
    [demo-app.py]'s [load_csv] returns the empty frame when the path does
    not exist and when [read_csv] fails on it, and with any memo at all it
    never raises; [app.py]'s [load_csv] returns the empty frame, with a
    warning, when the path does not exist, and when the path exists it
    returns what [read_csv] returns, its failure included. *)
Theorem load_csv_missing_or_unreadable (c_demo c_app : memo DataFrame) (path : string) :
  coherent DemoApp.load_csv_body c_demo ->
  coherent App.load_csv_body c_app ->
  (path_exists path = false \/ is_ok (read_csv path) = false ->
     (DemoApp.load_csv c_demo path).1 = (Ok DataFrame_new, []))
  /\ (forall c, is_ok (DemoApp.load_csv c path).1.1 = true)
  /\ (path_exists path = false ->
        (App.load_csv c_app path).1
          = (Ok DataFrame_new, ["⚠️ File not found: " +:+ path]))
  /\ (path_exists path = true ->
        (App.load_csv c_app path).1 = (read_csv path, [])).
Proof.
  intros Hdemo Happ. split; [|split; [|split]].
  - intros Hbad. unfold DemoApp.load_csv.
    rewrite (proj1 (cache_data_coherent DemoApp.load_csv_body c_demo path Hdemo)).
    unfold DemoApp.load_csv_body.
    destruct Hbad as [-> | Hbad]; [done|].
    destruct (path_exists path); [|done].
    by destruct (read_csv path).
  - intros c. apply demo_load_csv_ok.
  - intros Hmiss. unfold App.load_csv.
    rewrite (proj1 (cache_data_coherent App.load_csv_body c_app path Happ)).
    unfold App.load_csv_body. by rewrite Hmiss.
  - intros Hthere. unfold App.load_csv.
    rewrite (proj1 (cache_data_coherent App.load_csv_body c_app path Happ)).
    unfold App.load_csv_body. by rewrite Hthere.
Qed.


(** A view without a file shows its synthetic table whole under the
    filters the sidebar starts with. *)
Corollary missing_view_shows_demo_table {re : Re} (c : memo DataFrame) (v : DemoApp.view) :
  path_exists (DemoApp.file v) = false ->
  coherent DemoApp.load_csv_body c ->
  (DemoApp.tab_frame c v DemoApp.year_filter_default DemoApp.query_filter_default).1
    = Ok (DemoApp.make_demo_df (DemoApp.demo_kind v)).
Proof.
  intros Hfile Hc. unfold DemoApp.tab_frame, DemoApp.resolve_view, DemoApp.load_csv.
  pose proof (proj1 (cache_data_coherent DemoApp.load_csv_body c (DemoApp.file v) Hc)) as Hload.
  destruct (cache_data DemoApp.load_csv_body c (DemoApp.file v)) as [[r msgs] c'].
  simpl in Hload. unfold DemoApp.load_csv_body in Hload. rewrite Hfile in Hload.
  injection Hload as -> ->. simpl.
  apply make_demo_df_passes_defaults. by right.
Qed.

End LoadingClaims.

(** * The access gate *)

Section GateClaims.
Import DemoApp.

Lemma ACCESS_KEY_unset (secrets env : gmap string string) :
  secrets !! "ACCESS_KEY" = None -> env !! "DERBY_APP_KEY" = None ->
  ACCESS_KEY secrets env = None.
Proof. intros Hs He. unfold ACCESS_KEY. by rewrite Hs. Qed.


End GateClaims.

(** * Frames as objects: the argument is left alone *)

Section HeapClaims.
Context {re : Re}.
Import DemoApp.

Lemma new_fresh (h : store) (d : DataFrame) :
  exists l, new d h = (Ok l, <[l := d]> h) /\ h !! l = None.
Proof.
  exists (fresh (dom h)). split; [done|].
  apply not_elem_of_dom, is_fresh.
Qed.

Lemma read_bound (h : store) (l : ref) (d : DataFrame) :
  h !! l = Some d -> read l h = (Ok d, h).
Proof. intros Hl. unfold read. by rewrite Hl. Qed.

Lemma bind_run {A B} (m : M A) (f : A -> M B) (h : store) :
  (m ≫= f) h =
    match m h with
    | (Ok a, h') => f a h'
    | (Raise e, h') => (Raise e, h')
    end.
Proof. reflexivity. Qed.

Lemma columns_of_bound (h : store) (l : ref) (d : DataFrame) :
  h !! l = Some d -> columns_of l h = (Ok (columns d), h).
Proof. intros Hl. unfold columns_of. by rewrite bind_run, (read_bound _ _ _ Hl). Qed.

Lemma getitem_of_bound (h : store) (l : ref) (d : DataFrame) (name : string) :
  h !! l = Some d -> getitem_of l name h = (getitem d name, h).
Proof. intros Hl. unfold getitem_of. by rewrite bind_run, (read_bound _ _ _ Hl). Qed.

Lemma lands_same (h : store) (out : ref) (d : DataFrame) :
  h !! out = Some d -> lands h out (Ok d) (Ok out, h).
Proof. intros Hout. split; [done|]. simpl. by split; [|left]. Qed.

(** [setitem] is the operation that writes: the frame at the reference
    changes.  [apply_filters] never calls it. *)
Lemma setitem_of_writes (h : store) (l : ref) (d : DataFrame) (name : string)
    (dt : dtype) (values : list scalar) :
  h !! l = Some d ->
  (setitem_of l name dt values h).2 !! l = Some (setitem d name dt values).
Proof.
  intros Hl. unfold setitem_of, write.
  rewrite bind_run, (read_bound _ _ _ Hl). simpl. apply lookup_insert_eq.
Qed.

Lemma getitem_mask_of_lands (h : store) (out : ref) (d : DataFrame) (mask : list bool) :
  h !! out = Some d ->
  lands h out (Ok (getitem_mask d mask)) (getitem_mask_of out mask h).
Proof.
  intros Hout. unfold getitem_mask_of.
  rewrite bind_run, (read_bound _ _ _ Hout).
  destruct (new_fresh h (getitem_mask d mask)) as (l & -> & Hl).
  split; simpl.
  - by apply insert_subseteq.
  - split; [apply lookup_insert_eq | by right].
Qed.

Lemma copy_of_lands (h : store) (l : ref) (d : DataFrame) :
  h !! l = Some d ->
  exists out, copy_of l h = (Ok out, <[out := d]> h) /\ h !! out = None.
Proof.
  intros Hl. unfold copy_of.
  rewrite bind_run, (read_bound _ _ _ Hl), copy_same.
  apply new_fresh.
Qed.

Lemma filter_year_of_lands (h : store) (out : ref) (d : DataFrame) (year : option Z) :
  h !! out = Some d ->
  lands h out (filter_year year d) (filter_year_of year out h).
Proof.
  intros Hout. unfold filter_year, filter_year_of, has_column.
  destruct (truthy_int year); simpl; [|by apply lands_same].
  rewrite bind_run, (columns_of_bound _ _ _ Hout).
  destruct (bool_decide ("Year" ∈ columns d)); [|by apply lands_same].
  rewrite bind_run, (getitem_of_bound _ _ _ _ Hout).
  destruct (getitem d "Year") as [col|e]; simpl; [|by split].
  by apply getitem_mask_of_lands.
Qed.

Lemma filter_query_of_lands (h : store) (out : ref) (d : DataFrame) (query : option string) :
  h !! out = Some d ->
  lands h out (filter_query query d) (filter_query_of query out h).
Proof.
  intros Hout. unfold filter_query, filter_query_of, has_column.
  destruct (truthy_str query); simpl; [|by apply lands_same].
  rewrite bind_run, (columns_of_bound _ _ _ Hout).
  destruct (bool_decide ("Horse" ∈ columns d)); [|by apply lands_same].
  rewrite bind_run, (getitem_of_bound _ _ _ _ Hout).
  destruct (getitem d "Horse") as [col|e]; simpl; [|by split].
  rewrite bind_run. unfold lift.
  destruct (str_contains col (default "" query)) as [mask|e]; simpl; [|by split].
  by apply getitem_mask_of_lands.
Qed.

(** C9.  [apply_filters] leaves the frame it was given as it was: after
    the call the caller's reference holds the same frame, as does every
    other reference of the store; what the call returns is a reference that
    was not in the store before, so not the caller's, and it holds the
    frame [apply_filters] computes; an error of the one is the error of the
    other. *)
Theorem apply_filters_leaves_argument (h : store) (df : ref) (d : DataFrame)
    (year : option Z) (query : option string) :
  h !! df = Some d ->
  (apply_filters_of df year query h).2 !! df = Some d
  /\ (forall l d', h !! l = Some d' -> (apply_filters_of df year query h).2 !! l = Some d')
  /\ match apply_filters d year query, (apply_filters_of df year query h).1 with
     | Ok res, Ok out =>
         (apply_filters_of df year query h).2 !! out = Some res
         /\ out <> df /\ h !! out = None
     | Raise e, Raise e' => e = e'
     | _, _ => False
     end.
Proof.
  intros Hdf.
  assert (Hrun : exists h0, h ⊆ h0 /\
    match apply_filters d year query, (apply_filters_of df year query h).1 with
    | Ok res, Ok out =>
        (apply_filters_of df year query h).2 !! out = Some res /\ h !! out = None
    | Raise e, Raise e' => e = e'
    | _, _ => False
    end /\ h0 = (apply_filters_of df year query h).2).
  { unfold apply_filters, apply_filters_of.
    destruct (copy_of_lands _ _ _ Hdf) as (out0 & Hcopy & Hfresh0).
    rewrite bind_run, Hcopy, copy_same.
    pose proof (lookup_insert_eq h out0 d) as Hout0.
    pose proof (insert_subseteq h out0 d Hfresh0) as Hsub0.
    destruct (filter_year_of_lands _ _ _ year Hout0) as [Hsub1 Hy].
    rewrite bind_run.
    destruct (filter_year year d) as [d1|e1],
      (filter_year_of year out0 (<[out0:=d]> h)) as [[out1|e1'] h1];
      simpl in *; try done.
    2:{ exists h1. split; [by etrans|]. by subst. }
    destruct Hy as [Hout1 Hfresh1].
    destruct (filter_query_of_lands _ _ _ query Hout1) as [Hsub2 Hq].
    rewrite bind_run.
    destruct (filter_query query d1) as [d2|e2],
      (filter_query_of query out1 h1) as [[out2|e2'] h2];
      simpl in *; try done.
    2:{ exists h2. split; [by do 2 etrans|]. by subst. }
    destruct Hq as [Hout2 Hfresh2].
    exists h2. split; [by do 2 etrans|]. split; [|done]. split; [done|].
    assert (h !! out1 = None) as Hn1.
    { destruct Hfresh1 as [-> | Hn]; [done|].
      eapply lookup_weaken_None; [exact Hn | exact Hsub0]. }
    destruct Hfresh2 as [-> | Hn]; [done|].
    eapply lookup_weaken_None; [exact Hn | by etrans]. }
  destruct Hrun as (h0 & Hsub & Hres & ->).
  split; [by eapply lookup_weaken|].
  split; [intros l d' Hl; by eapply lookup_weaken|].
  destruct (apply_filters d year query), (apply_filters_of df year query h).1;
    try done.
  destruct Hres as [? Hn]. repeat split; [done| |done].
  intros ->. by rewrite Hdf in Hn.
Qed.
End HeapClaims.

(** * The claims at concrete inputs *)

Section AtInputs.
Import DemoApp Examples.

Lemma example_frames_wf :
  wf_frame two_years = true /\ wf_frame one_unnamed = true
  /\ wf_frame no_year = true /\ wf_frame no_horse = true
  /\ wf_frame index_only = true.
Proof. repeat split; reflexivity. Qed.

Lemma cluster_view_registered : cluster_view ∈ DATA_VIEWS.
Proof. do 4 right. left. Qed.

(** C1, at the empty file: [demo-app.py] answers with the empty frame where
    [read_csv] fails, [app.py] answers with the failure. *)
Lemma load_csv_at_empty_file :
  (DemoApp.load_csv (files := empty_file) ∅ "data/pca_summary.csv").1
    = (Ok DataFrame_new, [])
  /\ (App.load_csv (files := empty_file) ∅ "data/pca_summary.csv").1
       = (Raise (OtherError "EmptyDataError"), []).
Proof.
  pose proof (load_csv_missing_or_unreadable (files := empty_file) ∅ ∅
                "data/pca_summary.csv" (coherent_empty _) (coherent_empty _))
    as (Hdemo & _ & _ & Happ).
  split; [apply Hdemo; right; reflexivity | apply Happ; reflexivity].
Defined.

(** C1 as stated fails for [app.py]: its PCA file exists and holds nothing,
    parsing it fails, and [load_csv] raises instead of returning the empty
    frame. *)
Lemma app_load_csv_raises :
  path_exists (Files := empty_file) "derby_2025_pca_ranking.csv" = true
  /\ read_csv (Files := empty_file) "derby_2025_pca_ranking.csv"
       = Raise (OtherError "EmptyDataError")
  /\ (App.load_csv (files := empty_file) ∅ "derby_2025_pca_ranking.csv").1.1
       = Raise (OtherError "EmptyDataError")
  /\ (App.load_csv (files := empty_file) ∅ "derby_2025_pca_ranking.csv").1.1
       <> Ok DataFrame_new.
Proof. repeat split; [reflexivity..|discriminate]. Qed.

(** C2, at the year 2025 on a frame of two years. *)
Lemma apply_filters_year_exact_2025 :
  is_ok (apply_filters (re := small_re) two_years (Some 2025) None) = true /\
  forall (query : option string) (out : DataFrame),
    apply_filters (re := small_re) two_years (Some 2025) query = Ok out ->
    (forall r, r ∈ rows out -> scalar_eq_int (cell out "Year" r) 2025 = true)
    /\ rows out `sublist_of` rows two_years
    /\ schema out = schema two_years.
Proof.
  apply (apply_filters_year_exact (re := small_re) two_years 2025);
    [reflexivity | discriminate].
Defined.

(** C2 as stated fails at the year 0: the frame has a "Year" column, the
    call returns it whole, and its rows do not have the year 0. *)
Lemma year_zero_filters_nothing :
  wf_frame two_years = true
  /\ has_column "Year" two_years = true
  /\ apply_filters (re := small_re) two_years (Some 0) None = Ok two_years
  /\ Forall (fun r => scalar_eq_int (cell two_years "Year" r) 0 = false)
       (rows two_years).
Proof. repeat split; try reflexivity. repeat constructor. Qed.

(** C3, at the query "ACE" on a frame with one unnamed row. *)
Lemma apply_filters_query_ace :
  exists p, compile_ignorecase (Re := small_re) "ACE" = Some p /\
    (forall r, r ∈ [ {| label := 0; cells := [SStr "Midnight Ace"; SInt 2025] |} ] ->
       exists s, cell one_unnamed "Horse" r = SStr s /\ search (Re := small_re) p s = true) /\
    (forall r, cell one_unnamed "Horse" r = SNaN ->
       r ∉ [ {| label := 0; cells := [SStr "Midnight Ace"; SInt 2025] |} ]) /\
    [ {| label := 0; cells := [SStr "Midnight Ace"; SInt 2025] |} ]
      `sublist_of` rows one_unnamed.
Proof.
  apply (apply_filters_query_matches (re := small_re) one_unnamed (Some 2025) "ACE"
           {| schema := schema one_unnamed;
              rows := [ {| label := 0; cells := [SStr "Midnight Ace"; SInt 2025] |} ] |});
    [reflexivity | discriminate | reflexivity].
Defined.

(** C3 as stated fails at the empty query: the frame has a "Horse"
    column, the call returns it whole, and its second row has no name.  It
    also fails at the query "a.e", which is read as a pattern: the row of
    "Midnight Ace" is kept, and "a.e" does not occur in that name. *)
Lemma empty_query_keeps_unnamed_row :
  wf_frame one_unnamed = true
  /\ has_column "Horse" one_unnamed = true
  /\ apply_filters (re := small_re) one_unnamed None (Some "") = Ok one_unnamed
  /\ {| label := 1; cells := [SNaN; SInt 2025] |} ∈ rows one_unnamed
  /\ cell one_unnamed "Horse" {| label := 1; cells := [SNaN; SInt 2025] |} = SNaN
  /\ apply_filters (re := small_re) one_unnamed None (Some "a.e")
       = Ok {| schema := schema one_unnamed;
               rows := [ {| label := 0; cells := [SStr "Midnight Ace"; SInt 2025] |} ] |}
  /\ contains_text "a.e" "Midnight Ace" = false.
Proof. repeat split; try reflexivity. right. left. Qed.



(** C5, at a frame with rows and columns and at the empty frame. *)
Lemma ensure_demo_if_empty_at_inputs :
  ensure_demo_if_empty two_years "pca" = two_years
  /\ ensure_demo_if_empty (ensure_demo_if_empty DataFrame_new "pca") "pca"
       = ensure_demo_if_empty DataFrame_new "pca".
Proof.
  split.
  - by apply (proj1 (ensure_demo_if_empty_idempotent two_years "pca")).
  - apply (proj2 (ensure_demo_if_empty_idempotent DataFrame_new "pca")).
Defined.

(** C5 as stated fails at a frame with one row and no column: it has a
    row, [df.empty] is true of it, and the synthetic table comes back in
    its place. *)
Lemma index_only_frame_is_replaced :
  wf_frame index_only = true
  /\ length (rows index_only) = 1%nat
  /\ empty index_only = true
  /\ ensure_demo_if_empty index_only "Quick Composite" = make_demo_df "Quick Composite"
  /\ ensure_demo_if_empty index_only "Quick Composite" <> index_only.
Proof. repeat split; try reflexivity. discriminate. Qed.

(** C6, at a frame without "Year" and at a frame without "Horse". *)
Lemma absent_column_at_inputs :
  apply_filters (re := small_re) no_year (Some 2025) None = Ok no_year
  /\ apply_filters (re := small_re) no_horse None (Some "ace") = Ok no_horse.
Proof.
  split.
  - by apply (proj1 (absent_column_is_noop (re := small_re) no_year (Some 2025) None)).
  - by apply (proj2 (absent_column_is_noop (re := small_re) no_horse None (Some "ace"))).
Defined.


(** C9, at a store that holds the caller's frame only. *)
Lemma apply_filters_leaves_two_years :
  (apply_filters_of (re := small_re) 1%positive (Some 2025) (Some "lane") one_frame).2
     !! 1%positive = Some two_years.
Proof.
  by apply (apply_filters_leaves_argument (re := small_re) one_frame 1%positive
              two_years (Some 2025) (Some "lane")).
Defined.

(** C10, at the kind "pca". *)
Lemma make_demo_df_pca_survives :
  length (rows (make_demo_df "pca")) = 5%nat
  /\ apply_filters (re := small_re) (make_demo_df "pca")
       year_filter_default query_filter_default
       = Ok (make_demo_df "pca").
Proof.
  pose proof (make_demo_df_survives_default_year "pca") as (Hlen & _ & _ & _ & _ & Hkeep).
  split; [exact Hlen | apply Hkeep; by right].
Defined.

End AtInputs.

(** * Selecting columns *)

Section SelectFacts.
Import DemoApp.

Lemma column_index_lookup (name : string) (cols : list string) (i : nat) :
  column_index name cols = Some i -> cols !! i = Some name.
Proof.
  revert i. induction cols as [|c cols IH]; intros i; simpl; [done|].
  destruct (String.eqb_spec c name) as [->|Hne].
  - by intros [= <-].
  - destruct (column_index name cols) as [j|]; simpl; [|done].
    intros [= <-]. by apply IH.
Qed.

Lemma schema_nth_label (df : DataFrame) (name : string) (i : nat) :
  column_index name (columns df) = Some i ->
  (nth i (schema df) (EmptyString, object_)).1 = name.
Proof.
  intros Hi%column_index_lookup. unfold columns in Hi.
  rewrite list_lookup_fmap in Hi.
  destruct (schema df !! i) as [[c dt]|] eqn:Hs; simplify_eq/=.
  by rewrite (nth_lookup_Some _ _ _ _ Hs).
Qed.

Lemma getitem_list_Ok (df : DataFrame) (cols : list string) (out : DataFrame) :
  getitem_list df cols = Ok out ->
  exists at_,
    Forall2 (fun c i => column_index c (columns df) = Some i) cols at_
    /\ out = {| schema := (fun i => nth i (schema df) (EmptyString, object_)) <$> at_;
                rows := (fun r => {| label := label r;
                                     cells := (fun i => nth i (cells r) SNaN) <$> at_ |})
                        <$> rows df |}.
Proof.
  unfold getitem_list.
  destruct (mapM _ cols) as [at_|] eqn:Hm; [|done].
  intros [= <-]. exists at_. split; [|done]. by apply mapM_Some.
Qed.

Lemma getitem_list_columns (df : DataFrame) (cols : list string) (out : DataFrame) :
  getitem_list df cols = Ok out -> columns out = cols.
Proof.
  intros (at_ & Hat & ->)%getitem_list_Ok. unfold columns; simpl.
  induction Hat as [|c i cols at_ Hi _ IH]; simpl; [done|].
  f_equal; [by apply schema_nth_label | done].
Qed.

Lemma getitem_list_spec (df : DataFrame) (cols : list string) :
  (is_ok (getitem_list df cols) = true <-> forall c, c ∈ cols -> c ∈ columns df)
  /\ forall out, getitem_list df cols = Ok out ->
       columns out = cols
       /\ label <$> rows out = label <$> rows df
       /\ Forall2 (fun r r' => forall c, c ∈ cols -> cell out c r' = cell df c r)
            (rows df) (rows out).
Proof.
  split.
  - unfold getitem_list.
    destruct (mapM _ cols) as [at_|] eqn:Hm; simpl.
    + split; [intros _ c Hc|done].
      apply mapM_Some in Hm.
      apply list_elem_of_lookup in Hc as [j Hj].
      destruct (Forall2_lookup_l _ _ _ _ _ Hm Hj) as (i & _ & Hi).
      apply column_index_elem_of. by exists i.
    + split; [done|]. intros Hall. apply mapM_None in Hm.
      apply Exists_exists in Hm as (c & Hc & Hnone).
      apply Hall, column_index_elem_of in Hc as [i Hi]. congruence.
  - intros out Hout. split; [by eapply getitem_list_columns|].
    pose proof (getitem_list_columns _ _ _ Hout) as Hcols.
    destruct (getitem_list_Ok _ _ _ Hout) as (at_ & Hat & ->). simpl. split.
    + rewrite <- list_fmap_compose. by apply list_fmap_ext.
    + apply Forall2_fmap_r, Forall_Forall2_diag, Forall_forall.
      intros r _ c Hc. unfold cell at 1. rewrite Hcols.
      apply column_index_elem_of in Hc as [j Hj]. rewrite Hj. simpl.
      pose proof (column_index_lookup _ _ _ Hj) as Hcj.
      destruct (Forall2_lookup_l _ _ _ _ _ Hat Hcj) as (i & Hati & Hi).
      unfold cell. rewrite Hi.
      apply nth_lookup_Some. by rewrite list_lookup_fmap, Hati.
Qed.

(** X1.  [df[cols]] returns exactly when every label asked for is a column
    of the frame, and raises [KeyError] otherwise; what it returns has the
    labels asked for as its columns, in that order, the rows of the frame
    with their index labels, and under every label asked for the value the
    frame has there. *)
Theorem getitem_list_selects (df : DataFrame) (cols : list string) :
  (is_ok (getitem_list df cols) = true <-> forall c, c ∈ cols -> c ∈ columns df)
  /\ forall out, getitem_list df cols = Ok out ->
       columns out = cols
       /\ label <$> rows out = label <$> rows df
       /\ Forall2 (fun r r' => forall c, c ∈ cols -> cell out c r' = cell df c r)
            (rows df) (rows out).
Proof. exact (getitem_list_spec df cols). Qed.

End SelectFacts.

(** * The table of a tab *)

Section RenderFacts.
Import DemoApp.


Lemma multiselect_preset (opts pre : list string) (pick : option (list string))
    (cols : list string) :
  multiselect opts pre pick = Ok cols -> cols = default pre pick.
Proof. unfold multiselect. destruct (forallb _ pre); by intros [= <-]. Qed.

Lemma visible_in_frame (df : DataFrame) (c : string) :
  c ∈ List.filter (fun c => bool_decide (c ∈ columns df)) DEFAULT_VISIBLE_COLS ->
  c ∈ columns df.
Proof. by intros [_ Hc%bool_decide_eq_true]%elem_of_filter_bool. Qed.

Lemma truthy_list_nonempty {A} (l : list A) : truthy_list l = true <-> l <> [].
Proof. by destruct l. Qed.

Lemma empty_false_columns (df : DataFrame) : empty df = false -> columns df <> [].
Proof. unfold empty, columns. by destruct (schema df). Qed.

(** The default of the selector, as [render_table] computes it. *)
Lemma render_table_preset (df : DataFrame) (title : string) (pick : option (list string))
    (t : table) :
  render_table df title pick = Ok (Table t) ->
  empty df = false
  /\ options t = columns df
  /\ preset t =
       (if truthy_list (List.filter (fun c => bool_decide (c ∈ columns df)) DEFAULT_VISIBLE_COLS)
        then List.filter (fun c => bool_decide (c ∈ columns df)) DEFAULT_VISIBLE_COLS
        else take 8 (columns df))
  /\ file_name t = str_lower (str_replace_char " " "_" title) +:+ ".csv"
  /\ (if truthy_list (default (preset t) pick)
      then getitem_list df (default (preset t) pick) else Ok df) = Ok (shown t)
  /\ download t = shown t.
Proof.
  unfold render_table. destruct (empty df); [done|].
  set (pre := if truthy_list _ then _ else _).
  destruct (multiselect (columns df) pre pick) as [cols|e] eqn:Hm; simpl; [|done].
  apply multiselect_preset in Hm as ->.
  destruct (truthy_list (default pre pick)) eqn:Ht; simpl.
  - destruct (getitem_list df (default pre pick)) as [sh|e] eqn:Hsh; simpl; [|done].
    intros [= <-]. simpl. rewrite Ht, Hsh. by repeat split.
  - intros [= <-]. simpl. rewrite Ht. by repeat split.
Qed.

Lemma preset_in_frame (df : DataFrame) (c : string) :
  c ∈ (if truthy_list (List.filter (fun c => bool_decide (c ∈ columns df)) DEFAULT_VISIBLE_COLS)
       then List.filter (fun c => bool_decide (c ∈ columns df)) DEFAULT_VISIBLE_COLS
       else take 8 (columns df)) ->
  c ∈ columns df.
Proof.
  destruct (truthy_list _).
  - apply visible_in_frame.
  - intros Hc. apply list_elem_of_lookup in Hc as [i Hi].
    apply lookup_take_Some in Hi as [Hi _]. by eapply list_elem_of_lookup_2.
Qed.


(** X3.  The default of the column selector is never empty and holds
    only columns of the frame, so the selector accepts it: it is the
    columns of [DEFAULT_VISIBLE_COLS] that the frame has, in the order of
    that list, and when the frame has none of them, its first 8 columns. *)
Theorem render_table_default_selection (df : DataFrame) (title : string)
    (pick : option (list string)) (t : table) :
  render_table df title pick = Ok (Table t) ->
  options t = columns df
  /\ preset t <> []
  /\ (forall c, c ∈ preset t -> c ∈ options t)
  /\ (preset t `sublist_of` DEFAULT_VISIBLE_COLS
      \/ (forall c, c ∈ DEFAULT_VISIBLE_COLS -> c ∉ columns df)
         /\ preset t = take 8 (columns df))
  /\ (forall c, c ∈ DEFAULT_VISIBLE_COLS -> c ∈ columns df -> c ∈ preset t).
Proof.
  intros (He & Ho & Hp & _)%render_table_preset.
  split; [done|]. rewrite Ho, Hp. clear Ho Hp.
  set (vis := List.filter (fun c => bool_decide (c ∈ columns df)) DEFAULT_VISIBLE_COLS).
  assert (Hvis : forall c, c ∈ vis <-> c ∈ DEFAULT_VISIBLE_COLS /\ c ∈ columns df).
  { intros c. unfold vis. rewrite elem_of_filter_bool, bool_decide_eq_true. done. }
  split; [|split; [apply preset_in_frame|split]].
  - destruct (truthy_list vis) eqn:Ht; [by apply truthy_list_nonempty|].
    apply empty_false_columns in He. by destruct (columns df).
  - destruct (truthy_list vis) eqn:Ht.
    + left. apply filter_sublist.
    + right. split; [|done]. intros c Hc Hin.
      assert (c ∈ vis) as Hcv by by apply Hvis.
      destruct vis; [by apply elem_of_nil in Hcv | done].
  - intros c Hc Hin. assert (c ∈ vis) as Hcv by by apply Hvis.
    destruct (truthy_list vis) eqn:Ht; [done|].
    destruct vis; [by apply elem_of_nil in Hcv | done].
Qed.

End RenderFacts.

Section NameFacts.
Import DemoApp.






End NameFacts.

(** * The metrics of a tab *)

Section MetricFacts.
Context {objects : Objects}.
Import DemoApp.

Lemma remove_dups_length_mono {A} `{EqDecision A} (l k : list A) :
  (forall x, x ∈ l -> x ∈ k) ->
  (length (remove_dups l) <= length (remove_dups k))%nat.
Proof.
  intros Hsub. apply submseteq_length, NoDup_submseteq; [apply NoDup_remove_dups|].
  intros x. rewrite !elem_of_remove_dups. apply Hsub.
Qed.

Lemma remove_dups_length_le {A} `{EqDecision A} (l : list A) :
  (length (remove_dups l) <= length l)%nat.
Proof.
  apply submseteq_length, NoDup_submseteq; [apply NoDup_remove_dups|].
  intros x. by rewrite elem_of_remove_dups.
Qed.

Lemma nunique_le_length (s : Series) : (nunique s <= length (s_values s))%nat.
Proof.
  unfold nunique. etrans; [apply remove_dups_length_le|].
  rewrite length_fmap. apply sublist_length, filter_sublist.
Qed.

Lemma nunique_mono (vs ws : list scalar) (dt dt' : dtype) :
  (forall v, v ∈ vs -> v ∈ ws) ->
  (nunique {| s_dtype := dt; s_values := vs |}
   <= nunique {| s_dtype := dt'; s_values := ws |})%nat.
Proof.
  intros Hsub. unfold nunique; simpl. apply remove_dups_length_mono.
  intros x (v & -> & Hv)%list_elem_of_fmap.
  apply elem_of_filter_bool in Hv as [Hv Hna].
  apply list_elem_of_fmap. exists v. split; [done|].
  apply elem_of_filter_bool. split; [by apply Hsub | done].
Qed.

Lemma getitem_Ok_cells (df : DataFrame) (name : string) (s : Series) :
  getitem df name = Ok s -> s_values s = map (cell df name) (rows df).
Proof.
  unfold getitem, cell.
  destruct (column_index name (columns df)); [|done]. by intros [= <-].
Qed.

Lemma getitem_Ok_has_column (df : DataFrame) (name : string) (s : Series) :
  getitem df name = Ok s -> has_column name df = true.
Proof.
  unfold getitem, has_column.
  destruct (column_index name (columns df)) as [i|] eqn:Hi; [|done].
  intros _. apply bool_decide_eq_true, column_index_elem_of. by exists i.
Qed.

(** X6.  The "Horses" metric shows the number of distinct names, rows
    without a name left out: it is at most the number of rows that have a
    name, and filtering never makes it larger. *)
Theorem horses_count_shrinks_with_filters {re : Re} (df out : DataFrame)
    (year : option Z) (query : option string) (s s' : Series) :
  apply_filters df year query = Ok out ->
  getitem df "Horse" = Ok s ->
  getitem out "Horse" = Ok s' ->
  horses_metric df = Ok [("Horses", format_thousands (nunique s))]
  /\ horses_metric out = Ok [("Horses", format_thousands (nunique s'))]
  /\ (nunique s' <= nunique s)%nat
  /\ (nunique s <= length (List.filter (fun r => notna (cell df "Horse" r)) (rows df)))%nat
  /\ (nunique s <= length (rows df))%nat.
Proof.
  intros Hout Hs Hs'.
  split; [|split; [|split; [|split]]].
  - unfold horses_metric. by rewrite (getitem_Ok_has_column _ _ _ Hs), Hs.
  - unfold horses_metric. by rewrite (getitem_Ok_has_column _ _ _ Hs'), Hs'.
  - rewrite apply_filters_keep in Hout.
    destruct (query_error df query); [done|]. injection Hout as <-.
    destruct s as [dt vs], s' as [dt' vs'].
    apply getitem_Ok_cells in Hs, Hs'. simpl in Hs, Hs'. subst vs vs'.
    apply nunique_mono. intros v Hv.
    apply list_elem_of_In, in_map_iff in Hv as (r & <- & Hr).
    apply list_elem_of_In, elem_of_filter_bool in Hr as [Hr _].
    apply list_elem_of_In, in_map, list_elem_of_In, Hr.
  - unfold nunique. etrans; [apply remove_dups_length_le|].
    rewrite length_fmap, (getitem_Ok_cells _ _ _ Hs).
    clear. induction (rows df) as [|r rs IH]; simpl; [done|].
    destruct (notna (cell df "Horse" r)); simpl; lia.
  - etrans; [apply nunique_le_length|].
    by rewrite (getitem_Ok_cells _ _ _ Hs), length_map.
Qed.

Lemma horses_metric_ok (df : DataFrame) : is_ok (horses_metric df) = true.
Proof.
  unfold horses_metric. destruct (has_column "Horse" df) eqn:Hc; [|done].
  destruct (has_column_true _ _ Hc) as [i Hi].
  by rewrite (getitem_cells _ _ _ Hi).
Qed.

Lemma filter_notna_missing (vs : list scalar) :
  Forall (fun v => v = SNaN) vs -> List.filter notna vs = [].
Proof. induction 1 as [|v vs -> _ IH]; simpl; done. Qed.

Lemma tab_metrics_without_values (df : DataFrame) :
  has_column "PP" df = true ->
  Forall (fun r => cell df "PP" r = SNaN) (rows df) ->
  rows df = [] \/ column_dtype df "PP" <> Some object_ ->
  pp_range_metric df = Raise (OtherError "ValueError")
  /\ tab_metrics df = Raise (OtherError "ValueError").
Proof.
  intros Hc Hna Hdt.
  assert (Hpp : pp_range_metric df = Raise (OtherError "ValueError")).
  { unfold pp_range_metric. rewrite Hc.
    destruct (has_column_true _ _ Hc) as [i Hi].
    rewrite (getitem_cells _ _ _ Hi). simpl.
    assert (Hmin : series_min {| s_dtype := nth i (schema df).*2 object_;
                                 s_values := map (cell df "PP") (rows df) |} = Ok SNaN).
    { unfold series_min; simpl.
      destruct (map (cell df "PP") (rows df)) as [|v vs] eqn:Hvs; [done|].
      assert (rows df <> []) as Hrows by (intros Hr; by rewrite Hr in Hvs).
      destruct Hdt as [?|Hdt]; [done|].
      unfold column_dtype in Hdt. rewrite Hi in Hdt. simpl in Hdt.
      assert (reduce least (v :: vs) = SNaN) as Hred.
      { unfold reduce. rewrite <- Hvs, filter_notna_missing; [done|].
        by apply Forall_fmap. }
      destruct (nth i (schema df).*2 object_); by rewrite ?Hred. }
    by rewrite Hmin. }
  split; [done|]. unfold tab_metrics.
  pose proof (horses_metric_ok df) as Hh.
  destruct (horses_metric df); [|done]. simpl. by rewrite Hpp.
Qed.

(** X7.  On a frame that has a "PP" column and no value in it, because
    the frame has no row or because every cell of a column that is not of
    objects is missing, the "PP Range" metric raises [ValueError], and so
    do the metrics of the tab: [min] gives NaN and [int] refuses it. *)
Theorem pp_range_raises_without_values (df : DataFrame) :
  has_column "PP" df = true ->
  Forall (fun r => cell df "PP" r = SNaN) (rows df) ->
  rows df = [] \/ column_dtype df "PP" <> Some object_ ->
  pp_range_metric df = Raise (OtherError "ValueError")
  /\ tab_metrics df = Raise (OtherError "ValueError").
Proof. exact (tab_metrics_without_values df). Qed.

Lemma least_ints (a b : Z) : least (SInt a) (SInt b) = SInt (Z.min a b).
Proof.
  unfold least, scalar_le, dyadic_le; simpl. rewrite !Z.mul_1_r.
  destruct (Z.leb_spec b a).
  - by rewrite Z.min_r.
  - by rewrite Z.min_l by lia.
Qed.

Lemma greatest_ints (a b : Z) : greatest (SInt a) (SInt b) = SInt (Z.max a b).
Proof.
  unfold greatest, scalar_le, dyadic_le; simpl. rewrite !Z.mul_1_r.
  destruct (Z.leb_spec a b).
  - by rewrite Z.max_r.
  - by rewrite Z.max_l by lia.
Qed.

Lemma filter_notna_ints (zs : list Z) : List.filter notna (SInt <$> zs) = SInt <$> zs.
Proof.
  induction zs as [|z zs IH]; [done|].
  rewrite fmap_cons. simpl. by rewrite IH.
Qed.

Lemma fold_least_ints (zs : list Z) (z : Z) :
  exists lo, fold_left least (SInt <$> zs) (SInt z) = SInt lo
    /\ lo ∈ z :: zs /\ forall x, x ∈ z :: zs -> lo <= x.
Proof.
  revert z. induction zs as [|y zs IH]; intros z.
  - exists z. split; [done|]. split; [left|].
    intros x ->%list_elem_of_singleton. lia.
  - rewrite fmap_cons. cbn [fold_left]. rewrite least_ints. destruct (IH (Z.min z y)) as (lo & -> & Hin & Hle).
    exists lo. split; [done|]. split.
    + apply elem_of_cons in Hin as [->|Hin]; [|by do 2 right].
      destruct (Z.min_spec z y) as [[_ ->]|[_ ->]]; [left | right; left].
    + intros x Hx. pose proof (Hle (Z.min z y) ltac:(left)) as Hm.
      apply elem_of_cons in Hx as [->|Hx]; [lia|].
      apply elem_of_cons in Hx as [->|Hx]; [lia|].
      apply Hle. by right.
Qed.

Lemma fold_greatest_ints (zs : list Z) (z : Z) :
  exists hi, fold_left greatest (SInt <$> zs) (SInt z) = SInt hi
    /\ hi ∈ z :: zs /\ forall x, x ∈ z :: zs -> x <= hi.
Proof.
  revert z. induction zs as [|y zs IH]; intros z.
  - exists z. split; [done|]. split; [left|].
    intros x ->%list_elem_of_singleton. lia.
  - rewrite fmap_cons. cbn [fold_left]. rewrite greatest_ints. destruct (IH (Z.max z y)) as (hi & -> & Hin & Hle).
    exists hi. split; [done|]. split.
    + apply elem_of_cons in Hin as [->|Hin]; [|by do 2 right].
      destruct (Z.max_spec z y) as [[_ ->]|[_ ->]]; [right; left | left].
    + intros x Hx. pose proof (Hle (Z.max z y) ltac:(left)) as Hm.
      apply elem_of_cons in Hx as [->|Hx]; [lia|].
      apply elem_of_cons in Hx as [->|Hx]; [lia|].
      apply Hle. by right.
Qed.

(** X8.  On a "PP" column of integers with at least one row the metric
    shows "lo-hi" where lo and hi are values of the column and every value
    lies between them. *)
Theorem pp_range_of_ints (df : DataFrame) (zs : list Z) :
  getitem df "PP" = Ok {| s_dtype := int64; s_values := SInt <$> zs |} ->
  zs <> [] ->
  exists lo hi,
    pp_range_metric df = Ok [("PP Range", pretty lo +:+ "-" +:+ pretty hi)]
    /\ lo ∈ zs /\ hi ∈ zs /\ forall z, z ∈ zs -> lo <= z <= hi.
Proof.
  intros Hpp Hzs. destruct zs as [|z zs]; [done|].
  destruct (fold_least_ints zs z) as (lo & Hlo & Hlin & Hlle).
  destruct (fold_greatest_ints zs z) as (hi & Hhi & Hhin & Hhle).
  exists lo, hi. split; [|split; [done|split; [done|]]].
  - unfold pp_range_metric. rewrite (getitem_Ok_has_column _ _ _ Hpp), Hpp. simpl.
    unfold series_min, series_max, reduce; simpl.
    rewrite filter_notna_ints, Hlo, Hhi. done.
  - intros x Hx. split; [by apply Hlle | by apply Hhle].
Qed.

End MetricFacts.

(** * The memo over time, and the script of app.py *)

Section MemoFacts.

(** X12.  [demo-app.py]: once [load_csv] has answered for a path, the
    next call for that path gives the same answer and leaves the memo as it
    is, whatever the files have become: a file that was missing or
    unreadable stays the empty frame after it has been put right. *)
Theorem demo_load_csv_answer_sticks (before after : Files) (c : memo DataFrame)
    (path : string) :
  DemoApp.load_csv (files := after) (DemoApp.load_csv (files := before) c path).2 path
  = ((DemoApp.load_csv (files := before) c path).1,
     (DemoApp.load_csv (files := before) c path).2).
Proof.
  unfold DemoApp.load_csv, cache_data.
  destruct (c !! path) as [[v msgs]|] eqn:Hhit; simpl.
  - by rewrite Hhit.
  - destruct (demo_load_csv_body_ok (files := before) path) as [df ->]. simpl.
    by rewrite lookup_insert_eq.
Qed.

(** X13.  [app.py]: an answer of [load_csv], the empty frame and its
    warning for a missing file included, is repeated by the next call
    whatever the files have become; a call that raised left the memo as it
    was, and the next call reads the file again. *)
Theorem app_load_csv_keeps_answers_only (before after : Files) (c : memo DataFrame)
    (path : string) :
  (is_ok (App.load_csv (files := before) c path).1.1 = true ->
     App.load_csv (files := after) (App.load_csv (files := before) c path).2 path
     = ((App.load_csv (files := before) c path).1,
        (App.load_csv (files := before) c path).2))
  /\ (is_ok (App.load_csv (files := before) c path).1.1 = false ->
        (App.load_csv (files := before) c path).2 = c
        /\ (App.load_csv (files := after)
             (App.load_csv (files := before) c path).2 path).1
           = App.load_csv_body (files := after) path).
Proof.
  unfold App.load_csv, cache_data.
  destruct (c !! path) as [[v msgs]|] eqn:Hhit; simpl.
  - rewrite Hhit. by split.
  - destruct (App.load_csv_body (files := before) path) as [[df|e] msgs]; simpl.
    + rewrite lookup_insert_eq. by split.
    + split; [done|]. intros _. split; [done|]. rewrite Hhit.
      by destruct (App.load_csv_body (files := after) path) as [[df|e'] msgs'].
Qed.

End MemoFacts.

Section AppMainFacts.
Context {files : Files}.

Lemma app_load_csv_coherent (c : memo DataFrame) (path : string) :
  coherent App.load_csv_body c ->
  (App.load_csv c path).1 = App.load_csv_body path
  /\ coherent App.load_csv_body (App.load_csv c path).2.
Proof. apply cache_data_coherent. Qed.

Lemma load_all_ok_iff (paths : list string) (c : memo DataFrame) :
  coherent App.load_csv_body c ->
  is_ok (App.load_all paths c).1.1 = true <->
  Forall (fun p => path_exists p = true -> is_ok (read_csv p) = true) paths.
Proof.
  revert c. induction paths as [|p paths IH]; intros c Hc; simpl.
  - split; [constructor | done].
  - destruct (app_load_csv_coherent c p Hc) as [Hrun Hc1].
    destruct (App.load_csv c p) as [[r msgs] c1]. simpl in Hrun, Hc1.
    unfold App.load_csv_body in Hrun. rewrite Forall_cons.
    destruct (path_exists p); injection Hrun as -> ->.
    + destruct (read_csv p) as [df|e]; simpl.
      * specialize (IH c1 Hc1).
        destruct (App.load_all paths c1) as [[r' msgs'] c2]. simpl in *.
        rewrite <- IH. destruct r'; simpl; split; try done; tauto.
      * split; [done|]. intros [Hp _]. by specialize (Hp eq_refl).
    + specialize (IH c1 Hc1).
      destruct (App.load_all paths c1) as [[r' msgs'] c2]. simpl in *.
      rewrite <- IH. destruct r'; simpl; split; try done; tauto.
Qed.

Lemma load_all_Ok (paths : list string) (c : memo DataFrame)
    (dfs : list DataFrame) (msgs : list string) :
  coherent App.load_csv_body c ->
  (App.load_all paths c).1 = (Ok dfs, msgs) ->
  Forall2 App.loaded_as paths dfs
  /\ msgs = (fun p => "⚠️ File not found: " +:+ p)
            <$> List.filter (fun p => negb (path_exists p)) paths.
Proof.
  revert c dfs msgs. induction paths as [|p paths IH]; intros c dfs msgs Hc; simpl.
  - intros [= <- <-]. by split; [constructor|].
  - destruct (app_load_csv_coherent c p Hc) as [Hrun Hc1].
    destruct (App.load_csv c p) as [[r ms] c1]. simpl in Hrun, Hc1.
    unfold App.load_csv_body in Hrun.
    destruct (path_exists p) eqn:Hp; injection Hrun as -> ->.
    + destruct (read_csv p) as [df|e] eqn:Hread; simpl; [|done].
      specialize (IH c1). destruct (App.load_all paths c1) as [[r' msgs'] c2].
      destruct r' as [dfs'|e]; simpl; [|done]. intros [= <- <-].
      destruct (IH dfs' msgs' Hc1 eq_refl) as [Hall ->].
      split; [|done]. constructor; [|done]. unfold App.loaded_as. by rewrite Hp.
    + simpl. specialize (IH c1).
      destruct (App.load_all paths c1) as [[r' msgs'] c2].
      destruct r' as [dfs'|e]; simpl; [|done]. intros [= <- <-].
      destruct (IH dfs' msgs' Hc1 eq_refl) as [Hall ->].
      split; [|done]. constructor; [|done]. unfold App.loaded_as. by rewrite Hp.
Qed.

(** X14.  [app.py], with a memo that holds nothing stale: the script gets
    through its five loads exactly when every one of the five files that
    exists can be read; one unreadable file and no tab gets a table. *)
Theorem app_main_all_or_nothing (c : memo DataFrame) :
  coherent App.load_csv_body c ->
  is_ok (App.main c).1.1 = true <->
  forall p, p ∈ App.VIEW_FILES -> path_exists p = true -> is_ok (read_csv p) = true.
Proof.
  intros Hc. unfold App.main.
  pose proof (load_all_ok_iff App.VIEW_FILES c Hc) as Hiff.
  destruct (App.load_all App.VIEW_FILES c) as [[r msgs] c']. simpl in *.
  rewrite Forall_forall in Hiff. rewrite <- Hiff. by destruct r.
Qed.

(** X15.  [app.py], with a memo that holds nothing stale: a run that gets
    through gives the five tabs, under their names, the frame of their
    file, or the empty frame when the file is missing, and shows one
    warning for every missing file, in the order of the loads. *)
Theorem app_main_tabs (c : memo DataFrame) (tabs : list (string * DataFrame))
    (msgs : list string) :
  coherent App.load_csv_body c ->
  (App.main c).1 = (Ok tabs, msgs) ->
  tabs.*1 = App.TAB_NAMES
  /\ Forall2 App.loaded_as App.VIEW_FILES tabs.*2
  /\ msgs = (fun p => "⚠️ File not found: " +:+ p)
            <$> List.filter (fun p => negb (path_exists p)) App.VIEW_FILES.
Proof.
  intros Hc. unfold App.main.
  pose proof (load_all_Ok App.VIEW_FILES c) as Hall.
  destruct (App.load_all App.VIEW_FILES c) as [[r ms] c']. simpl in *.
  destruct r as [dfs|e]; simpl; [|done]. intros [= <- <-].
  destruct (Hall dfs ms Hc eq_refl) as [Hl ->].
  pose proof (Forall2_length _ _ _ Hl) as Hlen.
  do 6 (destruct dfs as [|? dfs]; try done).
Qed.

End AppMainFacts.

(** * A tab from its file to its metrics *)

Section TabFacts.
Context {files : Files}.
Import DemoApp.

Lemma resolve_view_body (c : memo DataFrame) (v : view) :
  coherent load_csv_body c ->
  (resolve_view c v).1
  = (df ← (load_csv_body (file v)).1; Ok (ensure_demo_if_empty df (demo_kind v))).
Proof.
  intros Hc. unfold resolve_view, load_csv.
  pose proof (proj1 (cache_data_coherent load_csv_body c (file v) Hc)) as Hload.
  destruct (cache_data load_csv_body c (file v)) as [[r msgs] c'].
  simpl in Hload. by rewrite <- Hload.
Qed.

Lemma resolve_view_cases (c : memo DataFrame) (v : view) :
  coherent load_csv_body c ->
  (forall df, path_exists (file v) = true -> read_csv (file v) = Ok df ->
     empty df = false -> (resolve_view c v).1 = Ok df)
  /\ (path_exists (file v) = false
      \/ is_ok (read_csv (file v)) = false
      \/ (exists df, read_csv (file v) = Ok df /\ empty df = true) ->
      (resolve_view c v).1 = Ok (make_demo_df (demo_kind v))).
Proof.
  intros Hc. rewrite (resolve_view_body c v Hc).
  unfold load_csv_body, ensure_demo_if_empty. split.
  - intros df -> -> Hne. simpl. by rewrite Hne.
  - intros [-> | [Hbad | (df & Hdf & He)]]; [done| |].
    + destruct (path_exists (file v)); [|done].
      by destruct (read_csv (file v)).
    + destruct (path_exists (file v)); [|done].
      rewrite Hdf. simpl. by rewrite He.
Qed.

(** X10.  With a memo that holds nothing stale, a tab is given the frame
    of its file when the file exists, can be read and has rows and columns;
    when the file is missing, cannot be read, or holds no row (a header
    alone), it is given the synthetic table of its kind. *)
Theorem resolve_view_substitutes (c : memo DataFrame) (v : view) :
  coherent load_csv_body c ->
  (forall df, path_exists (file v) = true -> read_csv (file v) = Ok df ->
     empty df = false -> (resolve_view c v).1 = Ok df)
  /\ (path_exists (file v) = false
      \/ is_ok (read_csv (file v)) = false
      \/ (exists df, read_csv (file v) = Ok df /\ empty df = true) ->
      (resolve_view c v).1 = Ok (make_demo_df (demo_kind v))).
Proof. exact (resolve_view_cases c v). Qed.






End TabFacts.

(** * More on the filters and the synthetic table *)

Section MoreFilterFacts.
Context {re : Re}.
Import DemoApp.

Lemma forallb_filter {A} (f p : A -> bool) (l : list A) :
  forallb f l = true -> forallb f (List.filter p l) = true.
Proof.
  induction l as [|x l IH]; simpl; [done|].
  intros [Hx Hl]%andb_true_iff. destruct (p x); simpl; [|by apply IH].
  by rewrite Hx, IH.
Qed.

(** X16.  Filtering twice with the same year and query is filtering once:
    [apply_filters] returns what it is given when that is one of its own
    results, and a result never has more rows than the argument. *)
Theorem apply_filters_idempotent (df out : DataFrame) (year : option Z)
    (query : option string) :
  apply_filters df year query = Ok out ->
  apply_filters out year query = Ok out
  /\ (length (rows out) <= length (rows df))%nat.
Proof.
  rewrite !apply_filters_keep.
  destruct (query_error df query) eqn:He; [done|]. intros [= <-]. split.
  - change (query_error (keep df _) query) with (query_error df query).
    rewrite He, keep_keep. f_equal. apply keep_ext. intros r.
    change (year_keeps (keep df _) year r) with (year_keeps df year r).
    change (query_keeps (keep df _) query r) with (query_keeps df query r).
    by destruct (year_keeps df year r), (query_keeps df query r).
  - apply sublist_length, filter_sublist.
Qed.

(** X17.  [apply_filters] keeps a frame well formed: the result has the
    columns and dtypes of the argument, and every row of it still has one
    cell of the right dtype per column. *)
Theorem apply_filters_keeps_wf (df out : DataFrame) (year : option Z)
    (query : option string) :
  wf_frame df = true ->
  apply_filters df year query = Ok out ->
  wf_frame out = true /\ schema out = schema df.
Proof.
  intros Hwf. rewrite apply_filters_keep.
  destruct (query_error df query); [done|]. intros [= <-]. split; [|done].
  unfold wf_frame in *. apply andb_true_iff in Hwf as [Hnd Hrows].
  apply andb_true_iff. split; [done|]. by apply forallb_filter.
Qed.

End MoreFilterFacts.

Section MoreDemoFacts.
Import DemoApp.

(** X18.  What [ensure_demo_if_empty] returns is never empty: it has a row
    and a column, whatever the argument, and it is well formed when the
    argument is. *)
Theorem ensure_demo_if_empty_never_empty (df : DataFrame) (kind : string) :
  empty (ensure_demo_if_empty df kind) = false
  /\ rows (ensure_demo_if_empty df kind) <> []
  /\ columns (ensure_demo_if_empty df kind) <> []
  /\ (wf_frame df = true -> wf_frame (ensure_demo_if_empty df kind) = true).
Proof.
  assert (He : empty (ensure_demo_if_empty df kind) = false).
  { unfold ensure_demo_if_empty. destruct (empty df) eqn:Hd; simpl; [|done].
    apply make_demo_df_not_empty. }
  split; [done|]. split; [|split].
  - intros Hr. unfold empty in He. rewrite Hr in He. by rewrite orb_true_r in He.
  - by apply empty_false_columns.
  - intros Hwf. unfold ensure_demo_if_empty. destruct (empty df); simpl; [|done].
    apply make_demo_df_wf.
Qed.

Lemma make_demo_df_notes (kind : string) :
  Forall (fun r => cell (make_demo_df kind) "Note" r = SStr (kind +:+ " (demo)"))
    (rows (make_demo_df kind)).
Proof.
  unfold make_demo_df.
  destruct (String.eqb kind "pca"), (String.eqb kind "cluster");
    vm_compute; repeat (constructor; [reflexivity|]); constructor.
Qed.

(** X19.  The synthetic table has a "Cluster" column exactly for the kind
    "cluster" and the columns "PC1" and "PC2" exactly for the kind "pca";
    for every kind it is well formed and every row's "Note" is the kind
    followed by " (demo)". *)
Theorem make_demo_df_extra_columns (kind : string) :
  (has_column "Cluster" (make_demo_df kind) = true <-> kind = "cluster")
  /\ (has_column "PC1" (make_demo_df kind) = true <-> kind = "pca")
  /\ (has_column "PC2" (make_demo_df kind) = true <-> kind = "pca")
  /\ wf_frame (make_demo_df kind) = true
  /\ (forall r, r ∈ rows (make_demo_df kind) ->
        cell (make_demo_df kind) "Note" r = SStr (kind +:+ " (demo)")).
Proof.
  split; [|split; [|split; [|split]]].
  - unfold make_demo_df.
    destruct (String.eqb_spec kind "pca"), (String.eqb_spec kind "cluster");
      split; (done || congruence).
  - unfold make_demo_df.
    destruct (String.eqb_spec kind "pca"), (String.eqb_spec kind "cluster");
      split; (done || congruence).
  - unfold make_demo_df.
    destruct (String.eqb_spec kind "pca"), (String.eqb_spec kind "cluster");
      split; (done || congruence).
  - apply make_demo_df_wf.
  - apply Forall_forall, make_demo_df_notes.
Qed.


End MoreDemoFacts.

(** * The further properties at concrete inputs *)

Section ExtrasAtInputs.
Import DemoApp Examples.


(** X3, at a frame that has two of the default columns. *)
Lemma render_table_default_of_no_horse :
  options no_horse_table = columns no_horse
  /\ preset no_horse_table <> []
  /\ (forall c, c ∈ preset no_horse_table -> c ∈ options no_horse_table)
  /\ (preset no_horse_table `sublist_of` DEFAULT_VISIBLE_COLS
      \/ (forall c, c ∈ DEFAULT_VISIBLE_COLS -> c ∉ columns no_horse)
         /\ preset no_horse_table = take 8 (columns no_horse))
  /\ (forall c, c ∈ DEFAULT_VISIBLE_COLS -> c ∈ columns no_horse ->
        c ∈ preset no_horse_table).
Proof.
  apply (render_table_default_selection no_horse "Value Picks" None no_horse_table).
  reflexivity.
Defined.


(** X6, at two names of which the year 2025 keeps one. *)
Lemma horses_count_of_two_years :
  horses_metric two_years = Ok [("Horses", "2")]
  /\ horses_metric of_2025 = Ok [("Horses", "1")].
Proof.
  pose proof (horses_count_shrinks_with_filters (re := small_re)
                two_years of_2025 (Some 2025) None
                {| s_dtype := object_;
                   s_values := [SStr "Thunder Lane"; SStr "Blue Ribbon"] |}
                {| s_dtype := object_; s_values := [SStr "Thunder Lane"] |}
                eq_refl eq_refl eq_refl) as (Hall & Hkept & _).
  split; [exact Hall | exact Hkept].
Defined.

(** X7, at a frame with a "PP" column and no row. *)
Lemma pp_range_of_no_rows :
  pp_range_metric (objects := no_objects) no_rows = Raise (OtherError "ValueError")
  /\ tab_metrics (objects := no_objects) no_rows = Raise (OtherError "ValueError").
Proof.
  apply (pp_range_raises_without_values (objects := no_objects) no_rows);
    [reflexivity | constructor | by left].
Defined.

(** X8, at the post positions 3 and 7. *)
Lemma pp_range_of_no_horse :
  exists lo hi,
    pp_range_metric (objects := no_objects) no_horse
    = Ok [("PP Range", pretty lo +:+ "-" +:+ pretty hi)]
    /\ lo ∈ [3; 7] /\ hi ∈ [3; 7] /\ forall z, z ∈ [3; 7] -> lo <= z <= hi.
Proof.
  apply (pp_range_of_ints (objects := no_objects) no_horse [3; 7]);
    [reflexivity | discriminate].
Defined.


(** X10, at the first view with its file on disk. *)
Lemma quick_view_gets_its_file :
  (resolve_view (files := quick_file) ∅ quick_view).1 = Ok two_years.
Proof.
  by apply (proj1 (resolve_view_substitutes (files := quick_file) ∅ quick_view
                     (coherent_empty _)) two_years).
Defined.


(** X14, with no file on disk: the script gets through. *)
Lemma app_main_gets_through_without_files :
  is_ok (App.main (files := no_files) ∅).1.1 = true.
Proof.
  apply (app_main_all_or_nothing (files := no_files) ∅ (coherent_empty _)).
  intros p _ Hp. discriminate Hp.
Defined.

(** X15, with no file on disk: five empty tabs and five warnings. *)
Lemma app_main_tabs_without_files :
  (zip App.TAB_NAMES (replicate 5 DataFrame_new)).*1 = App.TAB_NAMES
  /\ Forall2 (App.loaded_as (files := no_files)) App.VIEW_FILES
       (zip App.TAB_NAMES (replicate 5 DataFrame_new)).*2
  /\ (fun p => "⚠️ File not found: " +:+ p) <$> App.VIEW_FILES
     = (fun p => "⚠️ File not found: " +:+ p)
       <$> List.filter (fun p => negb (path_exists (Files := no_files) p)) App.VIEW_FILES.
Proof.
  apply (app_main_tabs (files := no_files) ∅
           (zip App.TAB_NAMES (replicate 5 DataFrame_new))
           ((fun p => "⚠️ File not found: " +:+ p) <$> App.VIEW_FILES)
           (coherent_empty _)).
  reflexivity.
Defined.

(** X16, at the year 2025 on a frame of two years. *)
Lemma apply_filters_twice_at_2025 :
  apply_filters (re := small_re) of_2025 (Some 2025) (Some "lane") = Ok of_2025
  /\ (length (rows of_2025) <= length (rows two_years))%nat.
Proof.
  apply (apply_filters_idempotent (re := small_re) two_years of_2025
           (Some 2025) (Some "lane")).
  reflexivity.
Defined.

(** X17, at the same input. *)
Lemma apply_filters_wf_at_2025 :
  wf_frame of_2025 = true /\ schema of_2025 = schema two_years.
Proof.
  apply (apply_filters_keeps_wf (re := small_re) two_years of_2025
           (Some 2025) (Some "lane")); reflexivity.
Defined.

End ExtrasAtInputs.
